(** * Change_filmstrips notebook: parameter staging, acquisition call, export loop

    A shallow embedding of the code cells of
    [Real_world_examples/Change_filmstrips.ipynb].  The notebook is glue code:
    a cell that assigns seven parameters, a cell that calls the helper
    [run_filmstrip_app] and binds its result to [output_data], and a cell that
    loops over [output_data.groupby('timestep')] and calls [write_geotiff] once
    per group.  The helper, xarray's [groupby] and the writer are external and
    enter as parameters of the development; the kernel's global namespace, the
    standard output and the record of external calls are explicit state.  The
    import cell is taken as run: [run_filmstrip_app], [write_geotiff] and
    [print] are bound whenever a cell uses them; the cells named [_in] drop
    this for the two imported names and look them up as Python does. *)

From Stdlib Require Import ZArith SpecFloat.
From stdpp Require Import base strings list gmap pretty.

Open Scope string_scope.
Open Scope list_scope.

(** ** Python values and f-string formatting *)

(** A placeholder [{x}] of an f-string is replaced by [format(x, '')], which is
    [str(x)] for the built-in types: a [str] is rendered as itself and an [int]
    in decimal, with a leading minus sign when negative. *)
Class PyFormat (A : Type) := py_format : A -> string.
Global Hint Mode PyFormat ! : typeclass_instances.

Global Instance py_format_str : PyFormat string := fun s => s.
Global Instance py_format_int : PyFormat Z := fun z => pretty z.

(** A Python [float] is a binary64 value, kept as the IEEE 754 specification
    describes it: zero with its sign, or a sign, a mantissa of 53 bits and an
    exponent.  The literals [0.0] and [1.0] of the parameter cell: *)
Definition float_0_0 : spec_float := S754_zero false.
Definition float_1_0 : spec_float :=
  S754_finite false 4503599627370496 (-52).

(** The seven positional arguments of the call
    [run_filmstrip_app(output_name, time_range, time_step, tide_range,
    resolution, max_cloud, ls7_slc_off)], in the order they are written. *)
Record filmstrip_args := FilmstripArgs {
  arg_output_name : string;
  arg_time_range : string * string;
  arg_time_step : gmap string Z;
  arg_tide_range : spec_float * spec_float;
  arg_resolution : Z * Z;
  arg_max_cloud : Z;
  arg_ls7_slc_off : bool
}.

(** ** The kernel *)

Section Notebook.

(** The dtype of the 'timestep' coordinate, the raster of one group and the
    collection returned by the helper are opaque to the notebook. *)
Context {Label Dataset OutputData : Type} `{PyFormat Label}.

(** Errors raised inside the external collaborators, and the part of the
    world they act on (the working directory, the display). *)
Context {ExtError World : Type}.

(** [from notebookapp_changefilmstrips import run_filmstrip_app] *)
Variable run_filmstrip_app :
  filmstrip_args -> World -> (ExtError + OutputData) * World.
(** [output_data.groupby(key)]: the groups in the order xarray yields them. *)
Variable groupby : OutputData -> string -> ExtError + list (Label * Dataset).
(** [from datacube.helpers import write_geotiff], called as
    [write_geotiff(dataset=..., filename=...)]. *)
Variable write_geotiff :
  Dataset -> string -> World -> (ExtError + unit) * World.

(** The global names the code cells assign or read.  [None] is an unbound
    name.  [g_i] and [g_ds] are the targets of the [for] statement of the
    export cell, which are globals like every name bound at cell level. *)
Record namespace := Namespace {
  g_output_name : option string;
  g_time_range : option (string * string);
  g_time_step : option (gmap string Z);
  g_tide_range : option (spec_float * spec_float);
  g_resolution : option (Z * Z);
  g_max_cloud : option Z;
  g_ls7_slc_off : option bool;
  g_output_data : option OutputData;
  g_i : option Label;
  g_ds : option Dataset
}.

Inductive exn :=
| NameError (name : string)
| Raised (e : ExtError).

(** Calls that leave the notebook. *)
Inductive event :=
| CallRunFilmstripApp (args : filmstrip_args)
| CallGroupby (d : OutputData) (key : string)
| CallWriteGeotiff (dataset : Dataset) (filename : string).

Record kernel := Kernel {
  globals : namespace;
  stdout : list string;
  world : World;
  calls : list event
}.

(** A cell body runs on the kernel and either completes or raises; what it
    did to the kernel before raising stays done. *)
Definition cell (A : Type) : Type := kernel -> (exn + A) * kernel.

Definition cell_ret {A} (a : A) : cell A := fun k => (inr a, k).

Definition cell_bind {A B} (c : cell A) (f : A -> cell B) : cell B :=
  fun k =>
    match c k with
    | (inr a, k1) => f a k1
    | (inl e, k1) => (inl e, k1)
    end.

Notation "x <- c1 ;; c2" := (cell_bind c1 (fun x => c2))
  (at level 100, c1 at next level, right associativity).
Notation "c1 ;; c2" := (cell_bind c1 (fun _ => c2))
  (at level 100, right associativity).

(** Reading a global: [NameError] when it is unbound. *)
Definition read_global {A} (name : string) (get : namespace -> option A) : cell A :=
  fun k =>
    match get (globals k) with
    | Some v => (inr v, k)
    | None => (inl (NameError name), k)
    end.

(** Binding a global. *)
Definition assign (upd : namespace -> namespace) : cell unit :=
  fun k => (inr tt, Kernel (upd (globals k)) (stdout k) (world k) (calls k)).

Definition set_output_name (v : string) (g : namespace) : namespace :=
  Namespace (Some v) (g_time_range g) (g_time_step g) (g_tide_range g)
    (g_resolution g) (g_max_cloud g) (g_ls7_slc_off g) (g_output_data g)
    (g_i g) (g_ds g).
Definition set_time_range (v : string * string) (g : namespace) : namespace :=
  Namespace (g_output_name g) (Some v) (g_time_step g) (g_tide_range g)
    (g_resolution g) (g_max_cloud g) (g_ls7_slc_off g) (g_output_data g)
    (g_i g) (g_ds g).
Definition set_time_step (v : gmap string Z) (g : namespace) : namespace :=
  Namespace (g_output_name g) (g_time_range g) (Some v) (g_tide_range g)
    (g_resolution g) (g_max_cloud g) (g_ls7_slc_off g) (g_output_data g)
    (g_i g) (g_ds g).
Definition set_tide_range (v : spec_float * spec_float) (g : namespace) : namespace :=
  Namespace (g_output_name g) (g_time_range g) (g_time_step g) (Some v)
    (g_resolution g) (g_max_cloud g) (g_ls7_slc_off g) (g_output_data g)
    (g_i g) (g_ds g).
Definition set_resolution (v : Z * Z) (g : namespace) : namespace :=
  Namespace (g_output_name g) (g_time_range g) (g_time_step g) (g_tide_range g)
    (Some v) (g_max_cloud g) (g_ls7_slc_off g) (g_output_data g)
    (g_i g) (g_ds g).
Definition set_max_cloud (v : Z) (g : namespace) : namespace :=
  Namespace (g_output_name g) (g_time_range g) (g_time_step g) (g_tide_range g)
    (g_resolution g) (Some v) (g_ls7_slc_off g) (g_output_data g)
    (g_i g) (g_ds g).
Definition set_ls7_slc_off (v : bool) (g : namespace) : namespace :=
  Namespace (g_output_name g) (g_time_range g) (g_time_step g) (g_tide_range g)
    (g_resolution g) (g_max_cloud g) (Some v) (g_output_data g)
    (g_i g) (g_ds g).
Definition set_output_data (v : OutputData) (g : namespace) : namespace :=
  Namespace (g_output_name g) (g_time_range g) (g_time_step g) (g_tide_range g)
    (g_resolution g) (g_max_cloud g) (g_ls7_slc_off g) (Some v)
    (g_i g) (g_ds g).
Definition set_i (v : Label) (g : namespace) : namespace :=
  Namespace (g_output_name g) (g_time_range g) (g_time_step g) (g_tide_range g)
    (g_resolution g) (g_max_cloud g) (g_ls7_slc_off g) (g_output_data g)
    (Some v) (g_ds g).
Definition set_ds (v : Dataset) (g : namespace) : namespace :=
  Namespace (g_output_name g) (g_time_range g) (g_time_step g) (g_tide_range g)
    (g_resolution g) (g_max_cloud g) (g_ls7_slc_off g) (g_output_data g)
    (g_i g) (Some v).

(** [print(line)] *)
Definition print (line : string) : cell unit :=
  fun k => (inr tt, Kernel (globals k) (stdout k ++ [line]) (world k) (calls k)).

(** Recording a call that leaves the notebook. *)
Definition record (ev : event) (k : kernel) : kernel :=
  Kernel (globals k) (stdout k) (world k) (calls k ++ [ev]).

Definition with_world (w : World) (k : kernel) : kernel :=
  Kernel (globals k) (stdout k) w (calls k).

Definition call_run_filmstrip_app (args : filmstrip_args) : cell OutputData :=
  fun k =>
    let k1 := record (CallRunFilmstripApp args) k in
    match run_filmstrip_app args (world k1) with
    | (inr d, w) => (inr d, with_world w k1)
    | (inl e, w) => (inl (Raised e), with_world w k1)
    end.

Definition call_groupby (d : OutputData) (key : string)
  : cell (list (Label * Dataset)) :=
  fun k =>
    let k1 := record (CallGroupby d key) k in
    match groupby d key with
    | inr groups => (inr groups, k1)
    | inl e => (inl (Raised e), k1)
    end.

Definition call_write_geotiff (dataset : Dataset) (filename : string)
  : cell unit :=
  fun k =>
    let k1 := record (CallWriteGeotiff dataset filename) k in
    match write_geotiff dataset filename (world k1) with
    | (inr _, w) => (inr tt, with_world w k1)
    | (inl e, w) => (inl (Raised e), with_world w k1)
    end.

(** [for x in xs: body] *)
Fixpoint for_each {A} (xs : list A) (body : A -> cell unit) : cell unit :=
  match xs with
  | [] => cell_ret tt
  | x :: rest => body x ;; for_each rest body
  end.

(** ** The code cells *)

(** The parameter cell:
<<
    output_name = 'example'
    time_range = ('1988-01-01', '2017-12-31')
    time_step = {'years': 5}
    tide_range = (0.0, 1.0)
    resolution = (-30, 30)
    max_cloud = 50
    ls7_slc_off = False
>> *)
Definition parameter_cell : cell unit :=
  assign (set_output_name "example") ;;
  assign (set_time_range ("1988-01-01", "2017-12-31")) ;;
  assign (set_time_step {[ "years" := 5%Z ]}) ;;
  assign (set_tide_range (float_0_0, float_1_0)) ;;
  assign (set_resolution ((-30)%Z, 30%Z)) ;;
  assign (set_max_cloud 50%Z) ;;
  assign (set_ls7_slc_off false).

(** The acquisition cell: the arguments are read left to right, the helper is
    called, and its result is bound to [output_data]. *)
Definition acquisition_cell : cell unit :=
  a1 <- read_global "output_name" g_output_name ;;
  a2 <- read_global "time_range" g_time_range ;;
  a3 <- read_global "time_step" g_time_step ;;
  a4 <- read_global "tide_range" g_tide_range ;;
  a5 <- read_global "resolution" g_resolution ;;
  a6 <- read_global "max_cloud" g_max_cloud ;;
  a7 <- read_global "ls7_slc_off" g_ls7_slc_off ;;
  d <- call_run_filmstrip_app (FilmstripArgs a1 a2 a3 a4 a5 a6 a7) ;;
  assign (set_output_data d).

(** The body of the export loop, for the group [(label, raster)]:
<<
    for i, ds in output_data.groupby('timestep'):
        print(f'Exporting {i} data')
        write_geotiff(dataset=ds, filename=f'geotiff_{output_name}_{i}.tif')
>> *)
Definition export_body (group : Label * Dataset) : cell unit :=
  assign (set_i (fst group)) ;;
  assign (set_ds (snd group)) ;;
  i <- read_global "i" g_i ;;
  print ("Exporting " +:+ py_format i +:+ " data") ;;
  ds <- read_global "ds" g_ds ;;
  output_name <- read_global "output_name" g_output_name ;;
  i' <- read_global "i" g_i ;;
  call_write_geotiff ds
    ("geotiff_" +:+ py_format output_name +:+ "_" +:+ py_format i' +:+ ".tif").

Definition export_cell : cell unit :=
  d <- read_global "output_data" g_output_data ;;
  groups <- call_groupby d "timestep" ;;
  for_each groups export_body.

(** ** Observations on a run *)

(** The writer calls among recorded events, as (raster, file name) pairs,
    and the collections that were grouped. *)
Definition writer_calls (evs : list event) : list (Dataset * string) :=
  omap (fun ev => match ev with
                  | CallWriteGeotiff dataset filename => Some (dataset, filename)
                  | _ => None
                  end) evs.

Definition groupby_calls (evs : list event) : list (OutputData * string) :=
  omap (fun ev => match ev with
                  | CallGroupby d key => Some (d, key)
                  | _ => None
                  end) evs.

(** The calls recorded while the kernel went from [k] to [k']. *)
Definition run_calls (k k' : kernel) : list event :=
  drop (length (calls k)) (calls k').

(** The file name of the most recent writer call, if the last recorded call
    is one. *)
Definition last_filename (k : kernel) : option string :=
  match last (calls k) with
  | Some (CallWriteGeotiff _ filename) => Some filename
  | _ => None
  end.

(** What the external writer does with a sequence of requests served one
    after the other, stopping at the first one it rejects: the outcome and
    the world it leaves. *)
Fixpoint writer_run (requests : list (Dataset * string)) (w : World)
  : (ExtError + unit) * World :=
  match requests with
  | [] => (inr tt, w)
  | (dataset, filename) :: rest =>
      match write_geotiff dataset filename w with
      | (inr _, w1) => writer_run rest w1
      | (inl e, w1) => (inl e, w1)
      end
  end.

(** How many of the requests reach the writer in such a sequence: all of
    them, or those up to and including the first rejected one. *)
Fixpoint writer_attempts (requests : list (Dataset * string)) (w : World)
  : nat :=
  match requests with
  | [] => 0
  | (dataset, filename) :: rest =>
      match write_geotiff dataset filename w with
      | (inr _, w1) => S (writer_attempts rest w1)
      | (inl _, _) => 1
      end
  end.

(** The targets [i, ds] after the loop has entered the given groups. *)
Definition bind_targets (entered : list (Label * Dataset)) (g : namespace)
  : namespace :=
  fold_left (fun g group => set_ds (snd group) (set_i (fst group) g)) entered g.

(** The last code cell:
<<
    import datacube
    print(datacube.__version__)
>>
    [datacube] is loaded since the import cell; its version is a [str]. *)
Variable datacube_version : string.

Definition version_cell : cell unit := print datacube_version.

(** The code cells after the import cell, in the order of the notebook, as
    running all cells executes them: a cell that raises ends the run. *)
Definition run_all : cell unit :=
  parameter_cell ;; acquisition_cell ;; export_cell ;; version_cell.

(** The names among the seven arguments of the helper call that are unbound,
    in the order the call reads them. *)
Definition unbound {A} (name : string) (value : option A) : list string :=
  match value with
  | Some _ => []
  | None => [name]
  end.

Definition unbound_parameters (g : namespace) : list string :=
  unbound "output_name" (g_output_name g)
  ++ unbound "time_range" (g_time_range g)
  ++ unbound "time_step" (g_time_step g)
  ++ unbound "tide_range" (g_tide_range g)
  ++ unbound "resolution" (g_resolution g)
  ++ unbound "max_cloud" (g_max_cloud g)
  ++ unbound "ls7_slc_off" (g_ls7_slc_off g).

(** ** The imported names *)

(** The import cell binds the two functions the later cells call:
<<
    from datacube.helpers import write_geotiff
    from notebookapp_changefilmstrips import run_filmstrip_app
>>
    No other cell binds or unbinds them.  The cells above are the cells of a
    kernel in which both are bound; the cells below also look the two names
    up, where Python does: the name of a function is read before its
    arguments, and an unbound name raises [NameError]. *)
Record imports := Imports {
  has_write_geotiff : bool;
  has_run_filmstrip_app : bool
}.

Definition read_import (name : string) (bound : bool) : cell unit :=
  fun k => if bound then (inr tt, k) else (inl (NameError name), k).

(** [output_data = run_filmstrip_app(output_name, ..., ls7_slc_off)] *)
Definition acquisition_cell_in (imp : imports) : cell unit :=
  read_import "run_filmstrip_app" (has_run_filmstrip_app imp) ;;
  a1 <- read_global "output_name" g_output_name ;;
  a2 <- read_global "time_range" g_time_range ;;
  a3 <- read_global "time_step" g_time_step ;;
  a4 <- read_global "tide_range" g_tide_range ;;
  a5 <- read_global "resolution" g_resolution ;;
  a6 <- read_global "max_cloud" g_max_cloud ;;
  a7 <- read_global "ls7_slc_off" g_ls7_slc_off ;;
  d <- call_run_filmstrip_app (FilmstripArgs a1 a2 a3 a4 a5 a6 a7) ;;
  assign (set_output_data d).

(** The loop body: [write_geotiff] is looked up after the progress line is
    printed and before [ds], [output_name] and [i] are read. *)
Definition export_body_in (imp : imports) (group : Label * Dataset)
  : cell unit :=
  assign (set_i (fst group)) ;;
  assign (set_ds (snd group)) ;;
  i <- read_global "i" g_i ;;
  print ("Exporting " +:+ py_format i +:+ " data") ;;
  read_import "write_geotiff" (has_write_geotiff imp) ;;
  ds <- read_global "ds" g_ds ;;
  output_name <- read_global "output_name" g_output_name ;;
  i' <- read_global "i" g_i ;;
  call_write_geotiff ds
    ("geotiff_" +:+ py_format output_name +:+ "_" +:+ py_format i' +:+ ".tif").

Definition export_cell_in (imp : imports) : cell unit :=
  d <- read_global "output_data" g_output_data ;;
  groups <- call_groupby d "timestep" ;;
  for_each groups (export_body_in imp).

(** All cells after the import cell, in order, in a kernel whose import cell
    left the names as [imp] says. *)
Definition run_all_in (imp : imports) : cell unit :=
  parameter_cell ;; acquisition_cell_in imp ;; export_cell_in imp ;;
  version_cell.

(** The names the acquisition cell reads that are unbound, in the order it
    reads them: the function first, then its arguments. *)
Definition unbound_names (imp : imports) (g : namespace) : list string :=
  (if has_run_filmstrip_app imp then [] else ["run_filmstrip_app"])
  ++ unbound_parameters g.

End Notebook.

(** ** The helper, as far as the notebook documents it *)

Section FilmstripHelper.

Context {OutputData Figure ExtError : Type}.

(** The working directory of the notebook and the date of the run. *)
Record session := Session {
  date_string : string;
  files : gmap string Figure
}.

(** Loading, filtering, compositing and plotting, none of which the notebook
    shows: the arguments yield the composites and the filmstrip figure, or
    an error. *)
Variable composite : filmstrip_args -> ExtError + OutputData * Figure.
(** The text that stands for [{time_step}] in the name of the plot. *)
Variable time_step_text : gmap string Z -> string.

(** Modelled from the spec: [run_filmstrip_app], defined in
    [Scripts/notebookapp_changefilmstrips.py], is missing from the sources.
    The notebook and the specification say of it that it returns the
    composites and saves the filmstrip plot to the directory the notebook
    runs from, under [filmstrip_{output_name}_{date_string}_{time_step}.png];
    an error ends the call. *)
Definition run_filmstrip_app_model (args : filmstrip_args) (w : session)
  : (ExtError + OutputData) * session :=
  match composite args with
  | inl e => (inl e, w)
  | inr (d, figure) =>
      (inr d,
       Session (date_string w)
         (<[ "filmstrip_" +:+ arg_output_name args +:+ "_" +:+ date_string w
             +:+ "_" +:+ time_step_text (arg_time_step args) +:+ ".png"
             := figure ]> (files w)))
  end.

End FilmstripHelper.

(** ** A concrete session: integer labels, rasters in a directory *)

Module Scenario.

(** A raster is named by the period it covers; a collection lists its groups
    in the order grouping yields them; the world is the directory. *)
Definition raster : Type := string.
Definition collection : Type := list (Z * raster).
Definition directory : Type := gmap string raster.

Inductive error :=
| KeyError (key : string)
| PermissionError (filename : string).

Definition groupby (d : collection) (key : string)
  : error + list (Z * raster) :=
  if decide (key = "timestep") then inr d else inl (KeyError key).

Definition write_geotiff (dataset : raster) (filename : string) (w : directory)
  : (error + unit) * directory :=
  (inr tt, <[ filename := dataset ]> w).

(** A writer that is refused one file name. *)
Definition write_geotiff_locked (locked : string)
    (dataset : raster) (filename : string) (w : directory)
  : (error + unit) * directory :=
  if decide (filename = locked) then (inl (PermissionError filename), w)
  else (inr tt, <[ filename := dataset ]> w).

Definition composites : collection :=
  [ (1988%Z, "1988 to 1992"); (1993%Z, "1993 to 1997");
    (1998%Z, "1998 to 2002"); (2003%Z, "2003 to 2007");
    (2008%Z, "2008 to 2012"); (2013%Z, "2013 to 2017") ].

Definition run_filmstrip_app (args : filmstrip_args) (w : directory)
  : (error + collection) * directory :=
  (inr composites, w).

(** A kernel in which no code cell has bound a global, the kernel after the
    parameter cell, and the kernel after the acquisition cell.  Whether the
    import cell has bound its names is kept apart, in [imports]. *)
Definition fresh : @kernel Z raster collection directory :=
  Kernel (Namespace None None None None None None None None None None) [] ∅ [].

Definition staged : @kernel Z raster collection directory :=
  snd (parameter_cell (ExtError := error) fresh).

Definition loaded : @kernel Z raster collection directory :=
  snd (acquisition_cell run_filmstrip_app staged).

(** A collection without groups. *)
Definition emptied : @kernel Z raster collection directory :=
  Kernel (set_output_data [] (globals staged)) [] ∅ [].

(** A helper that plots: the figure is named after the output, and a
    [time_step] of whole years is written as Python writes the dict. *)
Definition composite_plot (args : filmstrip_args)
  : error + collection * string :=
  inr (composites, "filmstrip of " +:+ arg_output_name args).

Definition years_text (time_step : gmap string Z) : string :=
  match time_step !! "years" with
  | Some n => "{'years': " +:+ pretty n +:+ "}"
  | None => "{}"
  end.

Definition plotting : @kernel Z raster collection (@session string) :=
  Kernel (globals staged) [] (Session "2020-04-01" ∅) [].

(** A collection without a 'timestep' variable, and a helper whose query
    fails. *)
Definition groupby_missing (d : collection) (key : string)
  : error + list (Z * raster) :=
  inl (KeyError key).

Definition run_filmstrip_app_failing (args : filmstrip_args) (w : directory)
  : (error + collection) * directory :=
  (inl (KeyError "product"), w).

(** A kernel in which [output_data] is bound and no parameter is, and one
    that holds composites of an earlier run under other parameters. *)
Definition unnamed : @kernel Z raster collection directory :=
  Kernel (set_output_data composites (globals fresh)) [] ∅ [].

Definition earlier : @kernel Z raster collection directory :=
  Kernel (set_output_data [ (1970%Z, "1970 to 1979") ]
            (set_max_cloud 10%Z (set_output_name "earlier" (globals staged))))
    [ "Exporting 1970 data" ]
    {[ "geotiff_earlier_1970.tif" := "1970 to 1979" ]}
    [].

End Scenario.

(** * Properties *)

(** ** Strings *)

Lemma app_string_length (s t : string) :
  String.length (s +:+ t) = String.length s + String.length t.
Proof. induction s as [|a s IH]; simpl; [done | by rewrite IH]. Qed.

(** Appending the same suffix to two strings keeps them apart. *)
Lemma app_string_inj_l (t s1 s2 : string) : s1 +:+ t = s2 +:+ t -> s1 = s2.
Proof.
  revert s2. induction s1 as [|a s1 IH]; intros [|b s2] Heq.
  - done.
  - apply (f_equal String.length) in Heq.
    rewrite !app_string_length in Heq. simpl in Heq. lia.
  - apply (f_equal String.length) in Heq.
    rewrite !app_string_length in Heq. simpl in Heq. lia.
  - change (String a (s1 +:+ t) = String b (s2 +:+ t)) in Heq.
    injection Heq as -> Heq. f_equal. by apply IH.
Qed.

(** ** Numbers *)

(** The two float literals are the binary64 values of the integers 0 and 1
    (53 bits of precision, exponents below 1024), and [0.0 < 1.0]. *)
Lemma float_literals :
  binary_normalize 53 1024 0 0 false = float_0_0
  /\ binary_normalize 53 1024 1 0 false = float_1_0
  /\ SFltb float_0_0 float_1_0 = true.
Proof. vm_compute. repeat split. Qed.

Example py_format_int_samples :
  py_format 1988%Z = "1988" /\ py_format 0%Z = "0" /\ py_format (-30)%Z = "-30".
Proof. vm_compute. repeat split. Qed.

Lemma py_format_str_inj : Inj (=) (=) (py_format : string -> string).
Proof. by intros s1 s2. Qed.

Lemma py_format_int_inj : Inj (=) (=) (py_format : Z -> string).
Proof. intros z1 z2. unfold py_format, py_format_int. apply pretty_Z_inj. Qed.

Section NotebookFacts.

Context {Label Dataset OutputData : Type} `{PyFormat Label}.
Context {ExtError World : Type}.
Variable run_filmstrip_app :
  filmstrip_args -> World -> (ExtError + OutputData) * World.
Variable groupby : OutputData -> string -> ExtError + list (Label * Dataset).
Variable write_geotiff :
  Dataset -> string -> World -> (ExtError + unit) * World.

Implicit Types (k : @kernel Label Dataset OutputData World).
Implicit Types (g : @namespace Label Dataset OutputData).
Implicit Types (groups : list (Label * Dataset)).

(** The request the loop body makes for a group. *)
Local Abbreviation request name :=
  (fun group : Label * Dataset =>
     (snd group,
      "geotiff_" +:+ name +:+ "_" +:+ py_format (fst group) +:+ ".tif")).
Local Abbreviation progress_line :=
  (fun group : Label * Dataset =>
     "Exporting " +:+ py_format (fst group) +:+ " data").

(** *** The namespace under the loop targets *)

Lemma bind_targets_frame groups g :
  g_output_name (bind_targets groups g) = g_output_name g
  /\ g_time_range (bind_targets groups g) = g_time_range g
  /\ g_time_step (bind_targets groups g) = g_time_step g
  /\ g_tide_range (bind_targets groups g) = g_tide_range g
  /\ g_resolution (bind_targets groups g) = g_resolution g
  /\ g_max_cloud (bind_targets groups g) = g_max_cloud g
  /\ g_ls7_slc_off (bind_targets groups g) = g_ls7_slc_off g
  /\ g_output_data (bind_targets groups g) = g_output_data g.
Proof.
  revert g. induction groups as [|group groups IH]; intros g; [done|].
  change (bind_targets (group :: groups) g)
    with (bind_targets groups (set_ds (snd group) (set_i (fst group) g))).
  destruct (IH (set_ds (snd group) (set_i (fst group) g)))
    as (-> & -> & -> & -> & -> & -> & -> & ->).
  done.
Qed.

(** *** One pass through the loop body *)

Lemma export_body_run name (group : Label * Dataset) k :
  g_output_name (globals k) = Some name ->
  export_body write_geotiff group k
  = let k1 := Kernel (set_ds (snd group) (set_i (fst group) (globals k)))
                (stdout k ++ [progress_line group]) (world k)
                (calls k ++ [CallWriteGeotiff (snd group)
                               (snd (request name group))]) in
    match write_geotiff (snd group) (snd (request name group)) (world k) with
    | (inr _, w) => (inr tt, with_world w k1)
    | (inl e, w) => (inl (Raised e), with_world w k1)
    end.
Proof.
  intros Hname. unfold export_body, cell_bind, assign, read_global, print,
    call_write_geotiff, record, with_world. simpl. rewrite Hname. simpl.
  by destruct (write_geotiff _ _ _) as [[e|[]] w].
Qed.

(** *** The whole loop *)

Lemma export_loop_run name groups : forall k,
  g_output_name (globals k) = Some name ->
  let requests := map (request name) groups in
  let n := writer_attempts write_geotiff requests (world k) in
  for_each groups (export_body write_geotiff) k
  = (match fst (writer_run write_geotiff requests (world k)) with
     | inr _ => inr tt
     | inl e => inl (Raised e)
     end,
     Kernel (bind_targets (take n groups) (globals k))
       (stdout k ++ map progress_line (take n groups))
       (snd (writer_run write_geotiff requests (world k)))
       (calls k ++ map (fun r => CallWriteGeotiff (fst r) (snd r))
                     (take n requests))).
Proof.
  induction groups as [|group groups IH]; intros k Hname; simpl.
  - unfold cell_ret. destruct k; simpl. by rewrite !app_nil_r.
  - unfold cell_bind at 1. rewrite (export_body_run name) by done. simpl.
    destruct (write_geotiff _ _ _) as [[e|[]] w]; simpl.
    + done.
    + rewrite IH by done. simpl. by rewrite <- !app_assoc.
Qed.

(** *** The writer along a run *)

Lemma writer_attempts_le requests : forall w,
  writer_attempts write_geotiff requests w <= length requests.
Proof.
  induction requests as [|[dataset filename] rest IH]; intros w; simpl; [lia|].
  destruct (write_geotiff _ _ _) as [[e|[]] w1]; [lia|].
  specialize (IH w1). lia.
Qed.

Lemma writer_attempts_all requests : forall w w',
  writer_run write_geotiff requests w = (inr tt, w') ->
  writer_attempts write_geotiff requests w = length requests.
Proof.
  induction requests as [|[dataset filename] rest IH]; intros w w'; simpl; [done|].
  destruct (write_geotiff _ _ _) as [[e|[]] w1]; [done|].
  intros Hrun. by rewrite (IH _ _ Hrun).
Qed.

Lemma writer_run_rejected pre dataset filename post : forall w w1 e w2,
  writer_run write_geotiff pre w = (inr tt, w1) ->
  write_geotiff dataset filename w1 = (inl e, w2) ->
  writer_run write_geotiff (pre ++ (dataset, filename) :: post) w = (inl e, w2)
  /\ writer_attempts write_geotiff (pre ++ (dataset, filename) :: post) w
     = S (length pre).
Proof.
  induction pre as [|[dataset' filename'] pre IH]; intros w w1 e w2; simpl.
  - intros [= ->] ->. done.
  - destruct (write_geotiff dataset' filename' w) as [[e'|[]] w']; [done|].
    intros Hpre Hrej. destruct (IH _ _ _ _ Hpre Hrej) as [-> ->]. done.
Qed.

(** *** The export cell *)

Lemma export_cell_enter k d groups :
  g_output_data (globals k) = Some d ->
  groupby d "timestep" = inr groups ->
  export_cell groupby write_geotiff k
  = for_each groups (export_body write_geotiff)
      (record (CallGroupby d "timestep") k).
Proof.
  intros Hd Hgroups. unfold export_cell, cell_bind, read_global, call_groupby.
  by rewrite Hd, Hgroups.
Qed.

Lemma run_calls_app k k' evs : calls k' = calls k ++ evs -> run_calls k k' = evs.
Proof. intros Hcalls. unfold run_calls. by rewrite Hcalls, drop_app_length. Qed.

Lemma writer_calls_requests (requests : list (Dataset * string)) :
  writer_calls (OutputData := OutputData)
    (map (fun r => CallWriteGeotiff (fst r) (snd r)) requests) = requests.
Proof.
  induction requests as [|[dataset filename] rest IH]; [done|].
  simpl. unfold writer_calls in *. simpl. by rewrite IH.
Qed.

(** Whatever the writer does, the calls of the export cell are the grouping
    followed by the requests of the first [n] groups, for the [n] the writer
    lets the loop reach. *)
Lemma export_cell_run k name d groups :
  g_output_name (globals k) = Some name ->
  g_output_data (globals k) = Some d ->
  groupby d "timestep" = inr groups ->
  let requests := map (request name) groups in
  let n := writer_attempts write_geotiff requests (world k) in
  export_cell groupby write_geotiff k
  = (match fst (writer_run write_geotiff requests (world k)) with
     | inr _ => inr tt
     | inl e => inl (Raised e)
     end,
     Kernel (bind_targets (take n groups) (globals k))
       (stdout k ++ map progress_line (take n groups))
       (snd (writer_run write_geotiff requests (world k)))
       (calls k ++ CallGroupby d "timestep"
          :: map (fun r => CallWriteGeotiff (fst r) (snd r))
               (map (request name) (take n groups)))).
Proof.
  intros Hname Hd Hgroups. rewrite (export_cell_enter k d groups) by done.
  rewrite (export_loop_run name) by done. simpl.
  by rewrite <- app_assoc, firstn_map.
Qed.

(** When the writer accepts every request, the cell completes and has made
    one call per group, in order. *)
Lemma export_cell_completes k name d groups w' :
  g_output_name (globals k) = Some name ->
  g_output_data (globals k) = Some d ->
  groupby d "timestep" = inr groups ->
  writer_run write_geotiff (map (request name) groups) (world k) = (inr tt, w') ->
  exists k',
    export_cell groupby write_geotiff k = (inr tt, k')
    /\ calls k' = calls k ++ CallGroupby d "timestep"
                    :: map (fun r => CallWriteGeotiff (fst r) (snd r))
                         (map (request name) groups)
    /\ world k' = w'.
Proof.
  intros Hname Hd Hgroups Hrun.
  rewrite (export_cell_run k name d groups) by done.
  rewrite (writer_attempts_all _ _ _ Hrun), Hrun, length_map, firstn_all. simpl.
  eexists. split; [done|]. by split.
Qed.

Lemma export_body_unbound (group : Label * Dataset) k :
  g_output_name (globals k) = None ->
  export_body write_geotiff group k
  = (inl (NameError "output_name"),
     Kernel (set_ds (snd group) (set_i (fst group) (globals k)))
       (stdout k ++ [progress_line group]) (world k) (calls k)).
Proof.
  intros Hname. unfold export_body, cell_bind, assign, read_global, print.
  simpl. by rewrite Hname.
Qed.

(** The globals after the export cell are those before it with the loop
    targets bound to the groups the loop entered. *)
Lemma export_cell_targets k :
  exists entered,
    globals (snd (export_cell groupby write_geotiff k))
    = bind_targets entered (globals k).
Proof.
  destruct (g_output_data (globals k)) as [d|] eqn:Hd.
  - destruct (groupby d "timestep") as [e|groups] eqn:Hgroups.
    + exists []. unfold export_cell, cell_bind, read_global, call_groupby.
      by rewrite Hd, Hgroups.
    + rewrite (export_cell_enter k d groups) by done.
      destruct (g_output_name (globals k)) as [name|] eqn:Hname.
      * rewrite (export_loop_run name) by done. simpl. by eexists.
      * destruct groups as [|group groups]; [by exists []|].
        exists [group]. simpl. unfold cell_bind.
        by rewrite export_body_unbound.
  - exists []. unfold export_cell, cell_bind, read_global. by rewrite Hd.
Qed.

(** The rasters that reach the writer are those of the leading groups. *)
Lemma export_cell_rasters k d groups :
  g_output_data (globals k) = Some d ->
  groupby d "timestep" = inr groups ->
  exists n,
    map fst (writer_calls
               (run_calls k (snd (export_cell groupby write_geotiff k))))
    = map snd (take n groups).
Proof.
  intros Hd Hgroups.
  destruct (g_output_name (globals k)) as [name|] eqn:Hname.
  - rewrite (export_cell_run k name d groups) by done. simpl.
    eexists. erewrite run_calls_app; [|done].
    change (writer_calls (?ev :: ?evs)) with (writer_calls evs).
    by rewrite writer_calls_requests, map_map.
  - exists 0. rewrite (export_cell_enter k d groups) by done.
    destruct groups as [|group groups]; simpl.
    + by rewrite (run_calls_app _ _ [CallGroupby d "timestep"]).
    + unfold cell_bind. rewrite export_body_unbound by done. simpl.
      by rewrite (run_calls_app _ _ [CallGroupby d "timestep"]).
Qed.

(** The file name of a group is injective in the text of its label. *)
Lemma geotiff_name_inj name (t1 t2 : string) :
  "geotiff_" +:+ name +:+ "_" +:+ t1 +:+ ".tif"
  = "geotiff_" +:+ name +:+ "_" +:+ t2 +:+ ".tif" ->
  t1 = t2.
Proof.
  intros Heq.
  apply (inj (String.app "geotiff_")), (inj (String.app name)),
    (inj (String.app "_")) in Heq.
  by apply app_string_inj_l in Heq.
Qed.

(** ** The export loop *)

(** C1: for every collection bound to [output_data], when the writer accepts
    the requests, the export cell completes, and what it called is one
    grouping of the collection on 'timestep' followed by exactly one writer
    call per group, in the order grouping yields the groups. *)
Theorem export_once_per_group k name d groups w' :
  g_output_name (globals k) = Some name ->
  g_output_data (globals k) = Some d ->
  groupby d "timestep" = inr groups ->
  writer_run write_geotiff (map (request name) groups) (world k)
  = (inr tt, w') ->
  exists k',
    export_cell groupby write_geotiff k = (inr tt, k')
    /\ run_calls k k'
       = CallGroupby d "timestep"
           :: map (fun group =>
                     CallWriteGeotiff (snd group)
                       ("geotiff_" +:+ name +:+ "_"
                          +:+ py_format (fst group) +:+ ".tif"))
                groups
    /\ groupby_calls (run_calls k k') = [(d, "timestep")]
    /\ length (writer_calls (run_calls k k')) = length groups.
Proof.
  intros Hname Hd Hgroups Hrun.
  destruct (export_cell_completes k name d groups w')
    as (k' & Hcell & Hcalls & _); [done..|].
  exists k'. split; [done|].
  rewrite (run_calls_app _ _ _ Hcalls).
  split; [by rewrite map_map|]. split.
  - unfold groupby_calls. simpl. f_equal.
    clear. induction groups as [|group groups IH]; [done|]. simpl. apply IH.
  - change (writer_calls (?ev :: ?evs)) with (writer_calls evs).
    by rewrite writer_calls_requests, !length_map.
Qed.

(** C2: for every label [i], every raster and every [output_name], a pass of
    the loop body calls the writer once, with the file name
    [geotiff_{output_name}_{i}.tif]; and whatever the outcome of the export
    cell, its writer calls are the first [n] groups' rasters under these
    names, [n] being the number of requests that reach the writer (at least
    one when there is a group): the name depends on [output_name] and the
    label only. *)
Theorem export_filename_format k name d groups :
  g_output_name (globals k) = Some name ->
  g_output_data (globals k) = Some d ->
  groupby d "timestep" = inr groups ->
  let requests :=
    map (fun group =>
           (snd group,
            "geotiff_" +:+ name +:+ "_" +:+ py_format (fst group) +:+ ".tif"))
      groups in
  let n := writer_attempts write_geotiff requests (world k) in
  (forall (i : Label) (ds : Dataset),
      writer_calls (run_calls k (snd (export_body write_geotiff (i, ds) k)))
      = [(ds, "geotiff_" +:+ name +:+ "_" +:+ py_format i +:+ ".tif")])
  /\ writer_calls (run_calls k (snd (export_cell groupby write_geotiff k)))
     = take n requests
  /\ n <= length groups
  /\ (groups <> [] -> 1 <= n).
Proof.
  intros Hname Hd Hgroups requests n. split; [|split; [|split]].
  - intros i ds. rewrite (export_body_run name) by done. simpl.
    destruct (write_geotiff _ _ _) as [[e|[]] w]; simpl;
      by rewrite (run_calls_app _ _
                    [CallWriteGeotiff ds
                       ("geotiff_" +:+ name +:+ "_" +:+ py_format i +:+ ".tif")]).
  - rewrite (export_cell_run k name d groups) by done. simpl.
    erewrite run_calls_app; [|done].
    change (writer_calls (?ev :: ?evs)) with (writer_calls evs).
    rewrite writer_calls_requests. subst n requests. by rewrite firstn_map.
  - subst n. etrans; [apply writer_attempts_le|].
    subst requests. by rewrite length_map.
  - intros Hsome. subst n requests.
    destruct groups as [|group rest]; [done|]. simpl.
    destruct (write_geotiff _ _ _) as [[e|[]] w]; lia.
Qed.

(** C6: when the writer accepts the groups before [(i, ds)] and raises on
    [(i, ds)], the export cell raises that error; it has called the writer
    for the groups before and once for [(i, ds)], and for no later group, and
    the world is as the failing call left it. *)
Theorem export_fail_fast k name d pre i ds post w1 e w2 :
  g_output_name (globals k) = Some name ->
  g_output_data (globals k) = Some d ->
  groupby d "timestep" = inr (pre ++ (i, ds) :: post) ->
  writer_run write_geotiff (map (request name) pre) (world k) = (inr tt, w1) ->
  write_geotiff ds ("geotiff_" +:+ name +:+ "_" +:+ py_format i +:+ ".tif") w1
  = (inl e, w2) ->
  exists k',
    export_cell groupby write_geotiff k = (inl (Raised e), k')
    /\ writer_calls (run_calls k k')
       = map (fun group =>
                (snd group,
                 "geotiff_" +:+ name +:+ "_"
                   +:+ py_format (fst group) +:+ ".tif"))
           (pre ++ [(i, ds)])
    /\ world k' = w2.
Proof.
  intros Hname Hd Hgroups Hpre Hrej.
  rewrite (export_cell_run k name d _) by done. simpl.
  rewrite map_app. simpl.
  destruct (writer_run_rejected _ _ _ (map (request name) post) _ _ _ _
              Hpre Hrej) as [-> ->].
  simpl. eexists. split; [done|]. split; [|done].
  erewrite run_calls_app; [|done].
  change (writer_calls (?ev :: ?evs)) with (writer_calls evs).
  rewrite writer_calls_requests, length_map. f_equal.
  change (pre ++ (i, ds) :: post) with (pre ++ [(i, ds)] ++ post).
  rewrite app_assoc, take_app_length'; [done|].
  rewrite length_app. simpl. lia.
Qed.

(** C8: when grouping yields no group, the export cell completes without
    calling the writer: nothing is printed and the world and the globals are
    as before. *)
Theorem export_no_groups k d :
  g_output_data (globals k) = Some d ->
  groupby d "timestep" = inr [] ->
  exists k',
    export_cell groupby write_geotiff k = (inr tt, k')
    /\ writer_calls (run_calls k k') = []
    /\ world k' = world k
    /\ stdout k' = stdout k
    /\ globals k' = globals k.
Proof.
  intros Hd Hgroups. rewrite (export_cell_enter k d []) by done. simpl.
  eexists. split; [done|].
  by rewrite (run_calls_app _ _ [CallGroupby d "timestep"]).
Qed.

Lemma export_body_last_filename name (group : Label * Dataset) k :
  g_output_name (globals k) = Some name ->
  last_filename (snd (export_body write_geotiff group k))
  = Some ("geotiff_" +:+ name +:+ "_" +:+ py_format (fst group) +:+ ".tif").
Proof.
  intros Hname. rewrite (export_body_run name) by done. simpl.
  destruct (write_geotiff _ _ _) as [[e|[]] w];
    unfold last_filename; simpl; by rewrite last_snoc.
Qed.

(** C9: when distinct labels have distinct texts, as those of [int] and
    [str] labels have, the export loop names the files of two groups with
    distinct labels differently, whatever [output_name] is; and in one run
    over groups with pairwise distinct labels no file name is passed to the
    writer twice. *)
Theorem export_filenames_distinct
    (Hlabel : Inj (=) (=) (py_format : Label -> string)) name :
  (forall (i j : Label) (ds_i ds_j : Dataset) k1 k2,
      g_output_name (globals k1) = Some name ->
      g_output_name (globals k2) = Some name ->
      i <> j ->
      last_filename (snd (export_body write_geotiff (i, ds_i) k1))
      <> last_filename (snd (export_body write_geotiff (j, ds_j) k2)))
  /\ (forall k d groups,
        g_output_name (globals k) = Some name ->
        g_output_data (globals k) = Some d ->
        groupby d "timestep" = inr groups ->
        NoDup (map fst groups) ->
        NoDup (map snd
                 (writer_calls
                    (run_calls k
                       (snd (export_cell groupby write_geotiff k)))))).
Proof.
  split.
  - intros i j ds_i ds_j k1 k2 Hi Hj Hne.
    rewrite !(export_body_last_filename name) by done. simpl.
    intros Heq. apply Hne, Hlabel, (geotiff_name_inj name). congruence.
  - intros k d groups Hname Hd Hgroups Hnodup.
    rewrite (export_cell_run k name d groups) by done. simpl.
    erewrite run_calls_app; [|done].
    change (writer_calls (?ev :: ?evs)) with (writer_calls evs).
    rewrite writer_calls_requests, map_map. simpl.
    rewrite <- (map_map fst (fun i =>
      "geotiff_" +:+ name +:+ "_" +:+ py_format i +:+ ".tif")).
    apply NoDup_fmap_2.
    + intros i j Heq%geotiff_name_inj. by apply Hlabel.
    + change (map fst ?l) with (fst <$> l). rewrite fmap_take.
      eapply sublist_NoDup; [done|apply sublist_take].
Qed.

(** C10, as the loop has it: the export cell leaves [output_data] and the
    seven parameters as they were, the only globals it binds being the loop
    targets [i] and [ds]; and the rasters it passes to the writer are the
    rasters of the leading groups, as grouping yielded them. *)
Theorem export_cell_frame k :
  let k' := snd (export_cell groupby write_geotiff k) in
  (g_output_data (globals k') = g_output_data (globals k)
   /\ g_output_name (globals k') = g_output_name (globals k)
   /\ g_time_range (globals k') = g_time_range (globals k)
   /\ g_time_step (globals k') = g_time_step (globals k)
   /\ g_tide_range (globals k') = g_tide_range (globals k)
   /\ g_resolution (globals k') = g_resolution (globals k)
   /\ g_max_cloud (globals k') = g_max_cloud (globals k)
   /\ g_ls7_slc_off (globals k') = g_ls7_slc_off (globals k))
  /\ (forall d groups,
        g_output_data (globals k) = Some d ->
        groupby d "timestep" = inr groups ->
        exists n,
          map fst (writer_calls (run_calls k k')) = map snd (take n groups)).
Proof.
  intros k'. split.
  - destruct (export_cell_targets k) as [entered Hglobals].
    subst k'. rewrite Hglobals.
    destruct (bind_targets_frame entered (globals k))
      as (-> & -> & -> & -> & -> & -> & -> & ->).
    done.
  - intros d groups Hd Hgroups. by apply (export_cell_rasters k d groups).
Qed.

(** ** The parameter cell and the acquisition cell *)

(** C4: the parameter cell completes and binds the seven parameters to the
    documented values. *)
Theorem parameter_cell_defaults k :
  exists k',
    parameter_cell (ExtError := ExtError) k = (inr tt, k')
    /\ g_output_name (globals k') = Some "example"
    /\ g_time_range (globals k') = Some ("1988-01-01", "2017-12-31")
    /\ g_time_step (globals k') = Some {[ "years" := 5%Z ]}
    /\ g_tide_range (globals k') = Some (float_0_0, float_1_0)
    /\ g_resolution (globals k') = Some ((-30)%Z, 30%Z)
    /\ g_max_cloud (globals k') = Some 50%Z
    /\ g_ls7_slc_off (globals k') = Some false.
Proof. eexists. split; [reflexivity|]. repeat split. Qed.

Lemma acquisition_cell_run k a1 a2 a3 a4 a5 a6 a7 :
  g_output_name (globals k) = Some a1 ->
  g_time_range (globals k) = Some a2 ->
  g_time_step (globals k) = Some a3 ->
  g_tide_range (globals k) = Some a4 ->
  g_resolution (globals k) = Some a5 ->
  g_max_cloud (globals k) = Some a6 ->
  g_ls7_slc_off (globals k) = Some a7 ->
  let args := FilmstripArgs a1 a2 a3 a4 a5 a6 a7 in
  acquisition_cell run_filmstrip_app k
  = match run_filmstrip_app args (world k) with
    | (inr d, w) =>
        (inr tt,
         Kernel (set_output_data d (globals k)) (stdout k) w
           (calls k ++ [CallRunFilmstripApp args]))
    | (inl e, w) =>
        (inl (Raised e),
         Kernel (globals k) (stdout k) w
           (calls k ++ [CallRunFilmstripApp args]))
    end.
Proof.
  intros H1 H2 H3 H4 H5 H6 H7.
  unfold acquisition_cell, cell_bind, read_global, call_run_filmstrip_app,
    assign, record, with_world.
  rewrite H1, H2, H3, H4, H5, H6, H7. simpl.
  by destruct (run_filmstrip_app _ _) as [[e|d] w].
Qed.

(** C5: whatever values the seven parameters are bound to, the acquisition
    cell calls the helper once, with exactly these values in the order
    output_name, time_range, time_step, tide_range, resolution, max_cloud,
    ls7_slc_off, and the parameters are bound to the same values after the
    cell. *)
Theorem acquisition_passes_parameters k a1 a2 a3 a4 a5 a6 a7 :
  g_output_name (globals k) = Some a1 ->
  g_time_range (globals k) = Some a2 ->
  g_time_step (globals k) = Some a3 ->
  g_tide_range (globals k) = Some a4 ->
  g_resolution (globals k) = Some a5 ->
  g_max_cloud (globals k) = Some a6 ->
  g_ls7_slc_off (globals k) = Some a7 ->
  let k' := snd (acquisition_cell run_filmstrip_app k) in
  run_calls k k'
  = [CallRunFilmstripApp (FilmstripArgs a1 a2 a3 a4 a5 a6 a7)]
  /\ g_output_name (globals k') = Some a1
  /\ g_time_range (globals k') = Some a2
  /\ g_time_step (globals k') = Some a3
  /\ g_tide_range (globals k') = Some a4
  /\ g_resolution (globals k') = Some a5
  /\ g_max_cloud (globals k') = Some a6
  /\ g_ls7_slc_off (globals k') = Some a7.
Proof.
  intros H1 H2 H3 H4 H5 H6 H7 k'. subst k'.
  rewrite (acquisition_cell_run k a1 a2 a3 a4 a5 a6 a7) by done.
  destruct (run_filmstrip_app _ _) as [[e|d] w]; simpl;
    (split; [by erewrite run_calls_app|done]).
Qed.

(** Nothing stands between the parameter cell and the call: run one after the
    other from any kernel, the helper receives the staged literals. *)
Lemma staged_parameters_reach_helper k :
  let staged := snd (parameter_cell (ExtError := ExtError) k) in
  run_calls staged (snd (acquisition_cell run_filmstrip_app staged))
  = [CallRunFilmstripApp
       (FilmstripArgs "example" ("1988-01-01", "2017-12-31")
          {[ "years" := 5%Z ]} (float_0_0, float_1_0) ((-30)%Z, 30%Z) 50%Z false)].
Proof.
  intros staged.
  rewrite (acquisition_cell_run staged "example" ("1988-01-01", "2017-12-31")
             {[ "years" := 5%Z ]} (float_0_0, float_1_0) ((-30)%Z, 30%Z) 50%Z false)
    by reflexivity.
  destruct (run_filmstrip_app _ _) as [[e|d] w]; simpl; by erewrite run_calls_app.
Qed.

End NotebookFacts.

(** ** The plot of the helper *)

Section FilmstripHelperFacts.

Context {Label Dataset OutputData Figure ExtError : Type}.
Variable composite : filmstrip_args -> ExtError + OutputData * Figure.
Variable time_step_text : gmap string Z -> string.

(** C7: with the helper as the notebook documents it, an acquisition cell
    whose helper call produces a figure leaves that figure in the directory
    under [filmstrip_{output_name}_{date_string}_{time_step}.png], a name
    fixed by [output_name], the date string of the session and [time_step];
    no other file of the directory changes. *)
Theorem filmstrip_plot_name
    (k : @kernel Label Dataset OutputData (@session Figure))
    a1 a2 a3 a4 a5 a6 a7 d figure :
  g_output_name (globals k) = Some a1 ->
  g_time_range (globals k) = Some a2 ->
  g_time_step (globals k) = Some a3 ->
  g_tide_range (globals k) = Some a4 ->
  g_resolution (globals k) = Some a5 ->
  g_max_cloud (globals k) = Some a6 ->
  g_ls7_slc_off (globals k) = Some a7 ->
  composite (FilmstripArgs a1 a2 a3 a4 a5 a6 a7) = inr (d, figure) ->
  let k' :=
    snd (acquisition_cell (run_filmstrip_app_model composite time_step_text) k)
  in
  let png :=
    "filmstrip_" +:+ a1 +:+ "_" +:+ date_string (world k) +:+ "_"
      +:+ time_step_text a3 +:+ ".png" in
  files (world k') !! png = Some figure
  /\ (forall other, other <> png ->
        files (world k') !! other = files (world k) !! other)
  /\ g_output_data (globals k') = Some d.
Proof.
  intros H1 H2 H3 H4 H5 H6 H7 Hcomposite k' png. subst k'.
  rewrite (acquisition_cell_run _ k a1 a2 a3 a4 a5 a6 a7) by done.
  unfold run_filmstrip_app_model. rewrite Hcomposite. simpl. fold png.
  split; [apply lookup_insert_eq|]. split; [|done].
  intros other Hother. by apply lookup_insert_ne.
Qed.

End FilmstripHelperFacts.

(** ** The documented scenario *)

Lemma example_requests {Dataset : Type} (d1 d2 d3 d4 d5 d6 : Dataset) :
  map (fun group : Z * Dataset =>
         (snd group,
          "geotiff_" +:+ "example" +:+ "_" +:+ py_format (fst group) +:+ ".tif"))
    [ (1988%Z, d1); (1993%Z, d2); (1998%Z, d3);
      (2003%Z, d4); (2008%Z, d5); (2013%Z, d6) ]
  = [ (d1, "geotiff_example_1988.tif"); (d2, "geotiff_example_1993.tif");
      (d3, "geotiff_example_1998.tif"); (d4, "geotiff_example_2003.tif");
      (d5, "geotiff_example_2008.tif"); (d6, "geotiff_example_2013.tif") ].
Proof. vm_compute. reflexivity. Qed.

(** C3: with [output_name = 'example'] and a collection whose grouping on
    'timestep' yields the six groups labelled 1988, 1993, 1998, 2003, 2008 and
    2013, in this order, an export cell whose writer accepts the six files
    completes after exactly six writer calls, for [geotiff_example_1988.tif] to
    [geotiff_example_2013.tif], in this order. *)
Theorem export_example_scenario {Dataset OutputData ExtError World : Type}
    (groupby : OutputData -> string -> ExtError + list (Z * Dataset))
    (write_geotiff : Dataset -> string -> World -> (ExtError + unit) * World)
    (k : @kernel Z Dataset OutputData World) d d1 d2 d3 d4 d5 d6 w' :
  g_output_name (globals k) = Some "example" ->
  g_output_data (globals k) = Some d ->
  groupby d "timestep"
  = inr [ (1988%Z, d1); (1993%Z, d2); (1998%Z, d3);
          (2003%Z, d4); (2008%Z, d5); (2013%Z, d6) ] ->
  writer_run write_geotiff
    [ (d1, "geotiff_example_1988.tif"); (d2, "geotiff_example_1993.tif");
      (d3, "geotiff_example_1998.tif"); (d4, "geotiff_example_2003.tif");
      (d5, "geotiff_example_2008.tif"); (d6, "geotiff_example_2013.tif") ]
    (world k)
  = (inr tt, w') ->
  exists k',
    export_cell groupby write_geotiff k = (inr tt, k')
    /\ writer_calls (run_calls k k')
       = [ (d1, "geotiff_example_1988.tif"); (d2, "geotiff_example_1993.tif");
           (d3, "geotiff_example_1998.tif"); (d4, "geotiff_example_2003.tif");
           (d5, "geotiff_example_2008.tif"); (d6, "geotiff_example_2013.tif") ]
    /\ length (writer_calls (run_calls k k')) = 6.
Proof.
  intros Hname Hd Hgroups Hrun.
  rewrite <- example_requests in Hrun.
  destruct (export_cell_completes groupby write_geotiff k "example" d _ w'
              Hname Hd Hgroups Hrun) as (k' & Hcell & Hcalls & _).
  exists k'. split; [done|].
  rewrite (run_calls_app _ _ _ Hcalls).
  change (writer_calls (?ev :: ?evs)) with (writer_calls evs).
  by rewrite writer_calls_requests, example_requests.
Qed.

(** ** The properties on the concrete session *)

Lemma export_once_per_group_witness :
  exists k',
    export_cell Scenario.groupby Scenario.write_geotiff Scenario.loaded
    = (inr tt, k')
    /\ run_calls Scenario.loaded k'
       = CallGroupby Scenario.composites "timestep"
           :: map (fun group : Z * Scenario.raster =>
                     CallWriteGeotiff (snd group)
                       ("geotiff_" +:+ "example" +:+ "_"
                          +:+ py_format (fst group) +:+ ".tif"))
                Scenario.composites
    /\ groupby_calls (run_calls Scenario.loaded k')
       = [(Scenario.composites, "timestep")]
    /\ length (writer_calls (run_calls Scenario.loaded k'))
       = length Scenario.composites.
Proof.
  apply (export_once_per_group Scenario.groupby Scenario.write_geotiff
           Scenario.loaded "example" Scenario.composites Scenario.composites
           (snd (writer_run Scenario.write_geotiff
                   (map (fun group : Z * Scenario.raster =>
                           (snd group,
                            "geotiff_" +:+ "example" +:+ "_"
                              +:+ py_format (fst group) +:+ ".tif"))
                      Scenario.composites)
                   (world Scenario.loaded)))).
  - vm_compute. reflexivity.
  - vm_compute. reflexivity.
  - vm_compute. reflexivity.
  - vm_compute. reflexivity.
Defined.

Lemma export_filename_format_witness :
  let locked := Scenario.write_geotiff_locked "geotiff_example_1998.tif" in
  let requests :=
    map (fun group : Z * Scenario.raster =>
           (snd group,
            "geotiff_" +:+ "example" +:+ "_" +:+ py_format (fst group) +:+ ".tif"))
      Scenario.composites in
  let n := writer_attempts locked requests (world Scenario.loaded) in
  (forall (i : Z) (ds : Scenario.raster),
      writer_calls
        (run_calls Scenario.loaded
           (snd (export_body locked (i, ds) Scenario.loaded)))
      = [(ds, "geotiff_" +:+ "example" +:+ "_" +:+ py_format i +:+ ".tif")])
  /\ writer_calls
       (run_calls Scenario.loaded
          (snd (export_cell Scenario.groupby locked Scenario.loaded)))
     = take n requests
  /\ n <= length Scenario.composites
  /\ (Scenario.composites <> [] -> 1 <= n).
Proof.
  apply (export_filename_format Scenario.groupby
           (Scenario.write_geotiff_locked "geotiff_example_1998.tif")
           Scenario.loaded "example" Scenario.composites Scenario.composites).
  - vm_compute. reflexivity.
  - vm_compute. reflexivity.
  - vm_compute. reflexivity.
Defined.

Lemma export_example_scenario_witness :
  exists k',
    export_cell Scenario.groupby Scenario.write_geotiff Scenario.loaded
    = (inr tt, k')
    /\ writer_calls (run_calls Scenario.loaded k')
       = [ ("1988 to 1992", "geotiff_example_1988.tif");
           ("1993 to 1997", "geotiff_example_1993.tif");
           ("1998 to 2002", "geotiff_example_1998.tif");
           ("2003 to 2007", "geotiff_example_2003.tif");
           ("2008 to 2012", "geotiff_example_2008.tif");
           ("2013 to 2017", "geotiff_example_2013.tif") ]
    /\ length (writer_calls (run_calls Scenario.loaded k')) = 6.
Proof.
  apply (export_example_scenario Scenario.groupby Scenario.write_geotiff
           Scenario.loaded Scenario.composites
           "1988 to 1992" "1993 to 1997" "1998 to 2002"
           "2003 to 2007" "2008 to 2012" "2013 to 2017"
           (snd (writer_run Scenario.write_geotiff
                   [ ("1988 to 1992", "geotiff_example_1988.tif");
                     ("1993 to 1997", "geotiff_example_1993.tif");
                     ("1998 to 2002", "geotiff_example_1998.tif");
                     ("2003 to 2007", "geotiff_example_2003.tif");
                     ("2008 to 2012", "geotiff_example_2008.tif");
                     ("2013 to 2017", "geotiff_example_2013.tif") ]
                   (world Scenario.loaded)))).
  - vm_compute. reflexivity.
  - vm_compute. reflexivity.
  - vm_compute. reflexivity.
  - vm_compute. reflexivity.
Defined.

Lemma acquisition_passes_parameters_witness :
  let k' := snd (acquisition_cell Scenario.run_filmstrip_app Scenario.staged) in
  run_calls Scenario.staged k'
  = [CallRunFilmstripApp
       (FilmstripArgs "example" ("1988-01-01", "2017-12-31")
          {[ "years" := 5%Z ]} (float_0_0, float_1_0) ((-30)%Z, 30%Z) 50%Z false)]
  /\ g_output_name (globals k') = Some "example"
  /\ g_time_range (globals k') = Some ("1988-01-01", "2017-12-31")
  /\ g_time_step (globals k') = Some {[ "years" := 5%Z ]}
  /\ g_tide_range (globals k') = Some (float_0_0, float_1_0)
  /\ g_resolution (globals k') = Some ((-30)%Z, 30%Z)
  /\ g_max_cloud (globals k') = Some 50%Z
  /\ g_ls7_slc_off (globals k') = Some false.
Proof.
  apply (acquisition_passes_parameters Scenario.run_filmstrip_app
           Scenario.staged); reflexivity.
Defined.

Lemma export_fail_fast_witness :
  exists k',
    export_cell Scenario.groupby
      (Scenario.write_geotiff_locked "geotiff_example_1998.tif")
      Scenario.loaded
    = (inl (Raised (Scenario.PermissionError "geotiff_example_1998.tif")), k')
    /\ writer_calls (run_calls Scenario.loaded k')
       = map (fun group : Z * Scenario.raster =>
                (snd group,
                 "geotiff_" +:+ "example" +:+ "_"
                   +:+ py_format (fst group) +:+ ".tif"))
           ([ (1988%Z, "1988 to 1992"); (1993%Z, "1993 to 1997") ]
              ++ [ (1998%Z, "1998 to 2002") ])
    /\ world k'
       = {[ "geotiff_example_1988.tif" := "1988 to 1992";
            "geotiff_example_1993.tif" := "1993 to 1997" ]}.
Proof.
  apply (export_fail_fast Scenario.groupby
           (Scenario.write_geotiff_locked "geotiff_example_1998.tif")
           Scenario.loaded "example" Scenario.composites
           [ (1988%Z, "1988 to 1992"); (1993%Z, "1993 to 1997") ]
           1998%Z "1998 to 2002"
           [ (2003%Z, "2003 to 2007"); (2008%Z, "2008 to 2012");
             (2013%Z, "2013 to 2017") ]
           {[ "geotiff_example_1988.tif" := "1988 to 1992";
              "geotiff_example_1993.tif" := "1993 to 1997" ]}).
  - vm_compute. reflexivity.
  - vm_compute. reflexivity.
  - vm_compute. reflexivity.
  - vm_compute. reflexivity.
  - vm_compute. reflexivity.
Defined.

Lemma export_no_groups_witness :
  exists k',
    export_cell Scenario.groupby Scenario.write_geotiff Scenario.emptied
    = (inr tt, k')
    /\ writer_calls (run_calls Scenario.emptied k') = []
    /\ world k' = world Scenario.emptied
    /\ stdout k' = stdout Scenario.emptied
    /\ globals k' = globals Scenario.emptied.
Proof.
  apply (export_no_groups Scenario.groupby Scenario.write_geotiff
           Scenario.emptied []); reflexivity.
Defined.

Lemma filmstrip_plot_name_witness :
  let k' :=
    snd (acquisition_cell
           (run_filmstrip_app_model Scenario.composite_plot Scenario.years_text)
           Scenario.plotting) in
  let png :=
    "filmstrip_" +:+ "example" +:+ "_"
      +:+ date_string (world Scenario.plotting) +:+ "_"
      +:+ Scenario.years_text {[ "years" := 5%Z ]} +:+ ".png" in
  files (world k') !! png = Some "filmstrip of example"
  /\ (forall other, other <> png ->
        files (world k') !! other = files (world Scenario.plotting) !! other)
  /\ g_output_data (globals k') = Some Scenario.composites.
Proof.
  apply (filmstrip_plot_name Scenario.composite_plot Scenario.years_text
           Scenario.plotting "example" ("1988-01-01", "2017-12-31")
           {[ "years" := 5%Z ]} (float_0_0, float_1_0) ((-30)%Z, 30%Z) 50%Z false
           Scenario.composites "filmstrip of example"); reflexivity.
Defined.

Lemma export_filenames_distinct_witness :
  last_filename
    (snd (export_body Scenario.write_geotiff (1988%Z, "1988 to 1992")
            Scenario.loaded))
  <> last_filename
       (snd (export_body Scenario.write_geotiff (1993%Z, "1993 to 1997")
               Scenario.loaded)).
Proof.
  apply (proj1 (export_filenames_distinct Scenario.groupby
                  Scenario.write_geotiff py_format_int_inj "example")).
  - reflexivity.
  - reflexivity.
  - lia.
Defined.

Lemma export_cell_frame_witness :
  exists n,
    map fst
      (writer_calls
         (run_calls Scenario.loaded
            (snd (export_cell Scenario.groupby Scenario.write_geotiff
                    Scenario.loaded))))
    = map snd (take n Scenario.composites).
Proof.
  apply (proj2 (export_cell_frame Scenario.groupby Scenario.write_geotiff
                  Scenario.loaded) Scenario.composites Scenario.composites).
  - reflexivity.
  - reflexivity.
Defined.

(** C10, as stated, fails on the loop targets: before the export cell of the
    concrete session [i] is unbound, after it [i] is bound to the last label,
    so the globals are not what they were. *)
Lemma export_rebinds_loop_targets :
  let k' :=
    snd (export_cell Scenario.groupby Scenario.write_geotiff Scenario.loaded) in
  g_i (globals Scenario.loaded) = None
  /\ g_i (globals k') = Some 2013%Z
  /\ g_ds (globals k') = Some "2013 to 2017"
  /\ globals k' <> globals Scenario.loaded.
Proof.
  intros k'. split; [reflexivity|]. split; [vm_compute; reflexivity|].
  split; [vm_compute; reflexivity|].
  intros Heq. apply (f_equal g_i) in Heq. vm_compute in Heq. discriminate Heq.
Qed.

(** * Further properties of the cells *)

Section NotebookRuns.

Context {Label Dataset OutputData : Type} `{PyFormat Label}.
Context {ExtError World : Type}.
Variable run_filmstrip_app :
  filmstrip_args -> World -> (ExtError + OutputData) * World.
Variable groupby : OutputData -> string -> ExtError + list (Label * Dataset).
Variable write_geotiff :
  Dataset -> string -> World -> (ExtError + unit) * World.
Variable datacube_version : string.

Implicit Types (k : @kernel Label Dataset OutputData World).
Implicit Types (g : @namespace Label Dataset OutputData).
Implicit Types (groups : list (Label * Dataset)).

Local Abbreviation request name :=
  (fun group : Label * Dataset =>
     (snd group,
      "geotiff_" +:+ name +:+ "_" +:+ py_format (fst group) +:+ ".tif")).
Local Abbreviation progress_line :=
  (fun group : Label * Dataset =>
     "Exporting " +:+ py_format (fst group) +:+ " data").

(** ** The export cell on unbound names and failing grouping *)

Lemma export_cell_unbound_data k :
  g_output_data (globals k) = None ->
  export_cell groupby write_geotiff k = (inl (NameError "output_data"), k).
Proof.
  intros Hd. unfold export_cell, cell_bind, read_global. by rewrite Hd.
Qed.

Lemma export_cell_groupby_raises k d e :
  g_output_data (globals k) = Some d ->
  groupby d "timestep" = inl e ->
  export_cell groupby write_geotiff k
  = (inl (Raised e), record (CallGroupby d "timestep") k).
Proof.
  intros Hd Hgroups. unfold export_cell, cell_bind, read_global, call_groupby.
  by rewrite Hd, Hgroups.
Qed.

Lemma export_cell_unbound_name k d (group : Label * Dataset) rest :
  g_output_name (globals k) = None ->
  g_output_data (globals k) = Some d ->
  groupby d "timestep" = inr (group :: rest) ->
  export_cell groupby write_geotiff k
  = (inl (NameError "output_name"),
     Kernel (set_ds (snd group) (set_i (fst group) (globals k)))
       (stdout k ++ [progress_line group]) (world k)
       (calls k ++ [CallGroupby d "timestep"])).
Proof.
  intros Hname Hd Hgroups.
  rewrite (export_cell_enter groupby write_geotiff k d _ Hd Hgroups).
  simpl. unfold cell_bind. by rewrite export_body_unbound.
Qed.

(** With the imported writer bound, the globals the export cell can find
    unbound are [output_data], in which case the kernel is left exactly as it
    was, and [output_name], in which case the writer has not been called. *)
Lemma export_name_errors k x :
  fst (export_cell groupby write_geotiff k) = inl (NameError x) ->
  (x = "output_data"
   /\ g_output_data (globals k) = None
   /\ snd (export_cell groupby write_geotiff k) = k)
  \/ (x = "output_name"
      /\ g_output_name (globals k) = None
      /\ writer_calls
           (run_calls k (snd (export_cell groupby write_geotiff k))) = []).
Proof.
  destruct (g_output_data (globals k)) as [d|] eqn:Hd.
  - destruct (groupby d "timestep") as [e|groups] eqn:Hgroups.
    { by rewrite (export_cell_groupby_raises k d e). }
    destruct (g_output_name (globals k)) as [name|] eqn:Hname.
    { rewrite (export_cell_run groupby write_geotiff k name d groups) by done.
      simpl. by destruct (fst (writer_run _ _ _)). }
    destruct groups as [|group rest].
    { by rewrite (export_cell_enter groupby write_geotiff k d []). }
    rewrite (export_cell_unbound_name k d group rest) by done. simpl.
    intros [= <-]. right. split; [done|]. split; [done|].
    by rewrite (run_calls_app _ _ [CallGroupby d "timestep"]).
  - rewrite export_cell_unbound_data by done. simpl.
    intros [= <-]. by left.
Qed.

(** X2: with [output_data] bound and [output_name] unbound, a collection with
    at least one group makes the export cell raise [NameError] for
    [output_name] after it has bound the loop targets to the first group and
    printed its progress line; the writer is not called and the world is as
    before. *)
Theorem export_without_output_name k d (i : Label) (ds : Dataset) rest :
  g_output_name (globals k) = None ->
  g_output_data (globals k) = Some d ->
  groupby d "timestep" = inr ((i, ds) :: rest) ->
  exists k',
    export_cell groupby write_geotiff k = (inl (NameError "output_name"), k')
    /\ stdout k' = stdout k ++ ["Exporting " +:+ py_format i +:+ " data"]
    /\ g_i (globals k') = Some i
    /\ g_ds (globals k') = Some ds
    /\ writer_calls (run_calls k k') = []
    /\ world k' = world k.
Proof.
  intros Hname Hd Hgroups.
  rewrite (export_cell_unbound_name k d (i, ds) rest) by done.
  eexists. split; [done|]. simpl. repeat (split; [done|]).
  by rewrite (run_calls_app _ _ [CallGroupby d "timestep"]).
Qed.

(** X3: when grouping the collection raises, the export cell raises the same
    error after that single call: nothing is printed, the writer is not
    called, and the globals and the world are as before. *)
Theorem export_groupby_error k d e :
  g_output_data (globals k) = Some d ->
  groupby d "timestep" = inl e ->
  exists k',
    export_cell groupby write_geotiff k = (inl (Raised e), k')
    /\ run_calls k k' = [CallGroupby d "timestep"]
    /\ stdout k' = stdout k
    /\ world k' = world k
    /\ globals k' = globals k.
Proof.
  intros Hd Hgroups. rewrite (export_cell_groupby_raises k d e) by done.
  eexists. split; [done|].
  by rewrite (run_calls_app _ _ [CallGroupby d "timestep"]).
Qed.

(** ** The export loop: progress lines, outcome, loop targets *)

Lemma bind_targets_last entered (group : Label * Dataset) g :
  g_i (bind_targets (entered ++ [group]) g) = Some (fst group)
  /\ g_ds (bind_targets (entered ++ [group]) g) = Some (snd group).
Proof. unfold bind_targets. by rewrite fold_left_app. Qed.

(** X4: the progress lines and the writer calls of the export cell go in
    lockstep: for some [n], the cell has printed [Exporting {i} data] for the
    first [n] groups, in order, and has called the writer for exactly these
    groups, a writer call that raises included. *)
Theorem export_progress_lines k name d groups :
  g_output_name (globals k) = Some name ->
  g_output_data (globals k) = Some d ->
  groupby d "timestep" = inr groups ->
  let k' := snd (export_cell groupby write_geotiff k) in
  exists n,
    n <= length groups
    /\ stdout k'
       = stdout k
         ++ map (fun group => "Exporting " +:+ py_format (fst group) +:+ " data")
              (take n groups)
    /\ map fst (writer_calls (run_calls k k')) = map snd (take n groups).
Proof.
  intros Hname Hd Hgroups k'. subst k'.
  rewrite (export_cell_run groupby write_geotiff k name d groups) by done.
  simpl. eexists. split; [|split; [done|]].
  - etrans; [apply writer_attempts_le|]. by rewrite length_map.
  - erewrite run_calls_app; [|done].
    change (writer_calls (?ev :: ?evs)) with (writer_calls evs).
    by rewrite writer_calls_requests, map_map.
Qed.

(** X5: with both names bound, the export cell completes exactly when the
    writer accepts the requests of all groups, served in order from the world
    the cell starts in; a completed cell has called the writer for every
    group, and in every outcome the world is the one the writer left. *)
Theorem export_completion k name d groups :
  g_output_name (globals k) = Some name ->
  g_output_data (globals k) = Some d ->
  groupby d "timestep" = inr groups ->
  let requests :=
    map (fun group =>
           (snd group,
            "geotiff_" +:+ name +:+ "_" +:+ py_format (fst group) +:+ ".tif"))
      groups in
  let k' := snd (export_cell groupby write_geotiff k) in
  (fst (export_cell groupby write_geotiff k) = inr tt
   <-> fst (writer_run write_geotiff requests (world k)) = inr tt)
  /\ (fst (export_cell groupby write_geotiff k) = inr tt ->
      writer_calls (run_calls k k') = requests)
  /\ world k' = snd (writer_run write_geotiff requests (world k)).
Proof.
  intros Hname Hd Hgroups requests k'. subst k'.
  rewrite (export_cell_run groupby write_geotiff k name d groups) by done.
  simpl. fold requests.
  destruct (writer_run write_geotiff requests (world k)) as [[e|[]] w] eqn:Hrun;
    simpl.
  - split; [by split|]. by split.
  - split; [done|]. split; [|done]. intros _.
    erewrite run_calls_app; [|done].
    change (writer_calls (?ev :: ?evs)) with (writer_calls evs).
    rewrite writer_calls_requests.
    rewrite (writer_attempts_all write_geotiff _ _ _ Hrun).
    unfold requests. by rewrite length_map, firstn_all.
Qed.

(** X6: after the export cell, the loop targets are those of the last writer
    call: [ds] is bound to the raster that call received, and [i] to the
    label its file name was made from. *)
Theorem export_targets_follow_last_call k name d groups before ds filename :
  g_output_name (globals k) = Some name ->
  g_output_data (globals k) = Some d ->
  groupby d "timestep" = inr groups ->
  let k' := snd (export_cell groupby write_geotiff k) in
  writer_calls (run_calls k k') = before ++ [(ds, filename)] ->
  exists i,
    g_i (globals k') = Some i
    /\ g_ds (globals k') = Some ds
    /\ filename = "geotiff_" +:+ name +:+ "_" +:+ py_format i +:+ ".tif".
Proof.
  intros Hname Hd Hgroups k'. subst k'.
  rewrite (export_cell_run groupby write_geotiff k name d groups) by done.
  simpl. erewrite run_calls_app; [|done].
  change (writer_calls (?ev :: ?evs)) with (writer_calls evs).
  rewrite writer_calls_requests.
  destruct (take _ groups) as [|group entered _] using rev_ind.
  - intros Hcalls. by destruct before.
  - rewrite map_app. simpl. intros [_ [= <- <-]]%app_inj_tail.
    destruct (bind_targets_last entered group (globals k)) as [Hi Hds].
    exists (fst group). by rewrite Hi, Hds.
Qed.

(** X7: what the export cell exports depends on [output_name], [output_data]
    and the world only: two kernels that agree on these, whatever their other
    parameters, loop targets, output and earlier calls, end the cell with the
    same outcome, the same calls and the same world. *)
Theorem export_depends_on_name_and_data k1 k2 name d groups :
  g_output_name (globals k1) = Some name ->
  g_output_name (globals k2) = Some name ->
  g_output_data (globals k1) = Some d ->
  g_output_data (globals k2) = Some d ->
  world k1 = world k2 ->
  groupby d "timestep" = inr groups ->
  let k1' := snd (export_cell groupby write_geotiff k1) in
  let k2' := snd (export_cell groupby write_geotiff k2) in
  fst (export_cell groupby write_geotiff k1)
  = fst (export_cell groupby write_geotiff k2)
  /\ run_calls k1 k1' = run_calls k2 k2'
  /\ world k1' = world k2'.
Proof.
  intros Hname1 Hname2 Hd1 Hd2 Hworld Hgroups k1' k2'. subst k1' k2'.
  rewrite (export_cell_run groupby write_geotiff k1 name d groups) by done.
  rewrite (export_cell_run groupby write_geotiff k2 name d groups) by done.
  simpl. rewrite Hworld. split; [done|]. split; [|done].
  erewrite (run_calls_app k1); [|done]. by erewrite (run_calls_app k2).
Qed.

(** X8: in every outcome the calls of the export cell are none at all, or one
    grouping of [output_data] on 'timestep' followed by writer calls only:
    the cell never calls the helper, never groups twice and never writes
    before grouping. *)
Theorem export_call_shape k :
  let evs := run_calls k (snd (export_cell groupby write_geotiff k)) in
  evs = []
  \/ exists d requests,
       g_output_data (globals k) = Some d
       /\ evs = CallGroupby d "timestep"
                :: map (fun r => CallWriteGeotiff (fst r) (snd r)) requests.
Proof.
  intros evs. subst evs.
  destruct (g_output_data (globals k)) as [d|] eqn:Hd.
  - right. exists d.
    destruct (groupby d "timestep") as [e|groups] eqn:Hgroups.
    { exists []. rewrite (export_cell_groupby_raises k d e) by done.
      split; [done|]. by rewrite (run_calls_app _ _ [CallGroupby d "timestep"]). }
    destruct (g_output_name (globals k)) as [name|] eqn:Hname.
    { rewrite (export_cell_run groupby write_geotiff k name d groups) by done.
      simpl. eexists. split; [done|]. by erewrite run_calls_app. }
    exists []. split; [done|]. destruct groups as [|group rest].
    + rewrite (export_cell_enter groupby write_geotiff k d []) by done.
      by rewrite (run_calls_app _ _ [CallGroupby d "timestep"]).
    + rewrite (export_cell_unbound_name k d group rest) by done.
      by rewrite (run_calls_app _ _ [CallGroupby d "timestep"]).
  - left. rewrite export_cell_unbound_data by done.
    unfold run_calls. simpl. by rewrite drop_all.
Qed.

(** ** The acquisition cell and the parameter cell *)

(** With the imported helper bound: when a parameter is unbound the cell
    raises [NameError] for the first unbound one in the order of the
    arguments and leaves the kernel as it was; otherwise it calls the helper
    exactly once. *)
Lemma acquisition_needs_all_parameters k :
  match head (unbound_parameters (globals k)) with
  | Some x =>
      acquisition_cell run_filmstrip_app k = (inl (NameError x), k)
  | None =>
      exists args,
        run_calls k (snd (acquisition_cell run_filmstrip_app k))
        = [CallRunFilmstripApp args]
  end.
Proof.
  unfold unbound_parameters, acquisition_cell, cell_bind, read_global.
  destruct (g_output_name (globals k)) as [a1|] eqn:H1; [|done].
  destruct (g_time_range (globals k)) as [a2|] eqn:H2; [|done].
  destruct (g_time_step (globals k)) as [a3|] eqn:H3; [|done].
  destruct (g_tide_range (globals k)) as [a4|] eqn:H4; [|done].
  destruct (g_resolution (globals k)) as [a5|] eqn:H5; [|done].
  destruct (g_max_cloud (globals k)) as [a6|] eqn:H6; [|done].
  destruct (g_ls7_slc_off (globals k)) as [a7|] eqn:H7; [|done].
  simpl. exists (FilmstripArgs a1 a2 a3 a4 a5 a6 a7).
  unfold call_run_filmstrip_app, assign, record, with_world. simpl.
  destruct (run_filmstrip_app _ _) as [[e|d] w]; simpl;
    by rewrite (run_calls_app _ _
                  [CallRunFilmstripApp (FilmstripArgs a1 a2 a3 a4 a5 a6 a7)]).
Qed.

(** X10: when the helper raises, the acquisition cell raises the same error
    and binds nothing: every global, [output_data] of an earlier run included,
    is as before, nothing is printed, and the world is as the helper left
    it. *)
Theorem acquisition_failure_keeps_globals k a1 a2 a3 a4 a5 a6 a7 e w :
  g_output_name (globals k) = Some a1 ->
  g_time_range (globals k) = Some a2 ->
  g_time_step (globals k) = Some a3 ->
  g_tide_range (globals k) = Some a4 ->
  g_resolution (globals k) = Some a5 ->
  g_max_cloud (globals k) = Some a6 ->
  g_ls7_slc_off (globals k) = Some a7 ->
  run_filmstrip_app (FilmstripArgs a1 a2 a3 a4 a5 a6 a7) (world k) = (inl e, w) ->
  exists k',
    acquisition_cell run_filmstrip_app k = (inl (Raised e), k')
    /\ globals k' = globals k
    /\ stdout k' = stdout k
    /\ world k' = w.
Proof.
  intros H1 H2 H3 H4 H5 H6 H7 Hrun.
  rewrite (acquisition_cell_run run_filmstrip_app k a1 a2 a3 a4 a5 a6 a7)
    by done.
  simpl. rewrite Hrun. by eexists.
Qed.

Lemma parameter_cell_run k :
  parameter_cell (ExtError := ExtError) k
  = (inr tt,
     Kernel
       (Namespace (Some "example") (Some ("1988-01-01", "2017-12-31"))
          (Some {[ "years" := 5%Z ]}) (Some (float_0_0, float_1_0))
          (Some ((-30)%Z, 30%Z)) (Some 50%Z) (Some false)
          (g_output_data (globals k)) (g_i (globals k)) (g_ds (globals k)))
       (stdout k) (world k) (calls k)).
Proof. reflexivity. Qed.

(** X11: the parameter cell touches the seven parameters only, so composites
    bound to [output_data] by an earlier run survive it, as do the loop
    targets, the output and the world; and running it again changes
    nothing. *)
Theorem parameter_cell_restage k :
  let k1 := snd (parameter_cell (ExtError := ExtError) k) in
  g_output_data (globals k1) = g_output_data (globals k)
  /\ g_i (globals k1) = g_i (globals k)
  /\ g_ds (globals k1) = g_ds (globals k)
  /\ stdout k1 = stdout k
  /\ world k1 = world k
  /\ calls k1 = calls k
  /\ snd (parameter_cell (ExtError := ExtError) k1) = k1.
Proof. intros k1. subst k1. rewrite !parameter_cell_run. by simpl. Qed.

(** ** Running all cells *)

Local Abbreviation defaults :=
  (FilmstripArgs "example" ("1988-01-01", "2017-12-31") {[ "years" := 5%Z ]}
     (float_0_0, float_1_0) ((-30)%Z, 30%Z) 50%Z false).

Lemma run_all_acquired k :
  run_all run_filmstrip_app groupby write_geotiff datacube_version k
  = let k1 := snd (parameter_cell (ExtError := ExtError) k) in
    match run_filmstrip_app defaults (world k) with
    | (inl e, w) =>
        (inl (Raised e),
         Kernel (globals k1) (stdout k) w
           (calls k ++ [CallRunFilmstripApp defaults]))
    | (inr d, w) =>
        match export_cell groupby write_geotiff
                (Kernel (set_output_data d (globals k1)) (stdout k) w
                   (calls k ++ [CallRunFilmstripApp defaults])) with
        | (inr _, k3) => version_cell datacube_version k3
        | (inl e, k3) => (inl e, k3)
        end
    end.
Proof.
  unfold run_all. unfold cell_bind at 1. rewrite parameter_cell_run.
  unfold cell_bind at 1.
  rewrite (acquisition_cell_run run_filmstrip_app _ "example"
             ("1988-01-01", "2017-12-31") {[ "years" := 5%Z ]}
             (float_0_0, float_1_0) ((-30)%Z, 30%Z) 50%Z false)
    by reflexivity.
  simpl. by destruct (run_filmstrip_app _ _) as [[e|d] w].
Qed.

(** With both imported names bound, the cells run in order find no global
    unbound. *)
Lemma run_all_no_name_error k x :
  fst (run_all run_filmstrip_app groupby write_geotiff datacube_version k)
  <> inl (NameError x).
Proof.
  rewrite run_all_acquired. simpl.
  destruct (run_filmstrip_app _ _) as [[e|d] w]; [done|].
  destruct (groupby d "timestep") as [e|groups] eqn:Hgroups.
  - by erewrite export_cell_groupby_raises.
  - erewrite (export_cell_run groupby write_geotiff _ "example" d groups);
      [|done..].
    simpl. by destruct (fst (writer_run _ _ _)).
Qed.

(** X13: when the helper returns a collection for the staged parameters,
    grouping it yields [groups] and the writer accepts their requests, running
    all cells from any kernel completes; the calls are the helper call with
    the staged parameters, the grouping of its result and one writer call per
    group for [geotiff_example_{i}.tif]; the output gains the progress lines
    and then the version; and [output_data] is the collection returned. *)
Theorem run_all_end_to_end k d groups w1 w2 :
  run_filmstrip_app defaults (world k) = (inr d, w1) ->
  groupby d "timestep" = inr groups ->
  writer_run write_geotiff (map (request "example") groups) w1 = (inr tt, w2) ->
  exists k',
    run_all run_filmstrip_app groupby write_geotiff datacube_version k
    = (inr tt, k')
    /\ run_calls k k'
       = CallRunFilmstripApp defaults
           :: CallGroupby d "timestep"
           :: map (fun group =>
                     CallWriteGeotiff (snd group)
                       ("geotiff_example_" +:+ py_format (fst group) +:+ ".tif"))
                groups
    /\ stdout k'
       = stdout k
         ++ map (fun group => "Exporting " +:+ py_format (fst group) +:+ " data")
              groups
         ++ [datacube_version]
    /\ world k' = w2
    /\ g_output_data (globals k') = Some d.
Proof.
  intros Hrun Hgroups Hwrite. rewrite run_all_acquired. simpl. rewrite Hrun.
  erewrite (export_cell_run groupby write_geotiff _ "example" d groups);
    [|done..].
  simpl. rewrite (writer_attempts_all write_geotiff _ _ _ Hwrite), Hwrite.
  rewrite length_map, firstn_all. simpl.
  eexists. split; [done|]. simpl. split; [|split; [|split]].
  - rewrite (run_calls_app _ _
               (CallRunFilmstripApp defaults
                  :: CallGroupby d "timestep"
                  :: map (fun r => CallWriteGeotiff (fst r) (snd r))
                       (map (request "example") groups)))
      by (simpl; by rewrite <- app_assoc).
    by rewrite map_map.
  - by rewrite <- app_assoc.
  - done.
  - match goal with
    | |- g_output_data (bind_targets ?entered ?g) = _ =>
        by destruct (bind_targets_frame entered g)
          as (_ & _ & _ & _ & _ & _ & _ & ->)
    end.
Qed.

(** X14: when the helper raises on the staged parameters, running all cells
    ends there with that error: nothing is grouped, written or printed, and
    composites that an earlier run bound to [output_data] stay bound and are
    not exported. *)
Theorem run_all_helper_failure k e w :
  run_filmstrip_app defaults (world k) = (inl e, w) ->
  exists k',
    run_all run_filmstrip_app groupby write_geotiff datacube_version k
    = (inl (Raised e), k')
    /\ run_calls k k' = [CallRunFilmstripApp defaults]
    /\ stdout k' = stdout k
    /\ world k' = w
    /\ g_output_data (globals k') = g_output_data (globals k).
Proof.
  intros Hrun. rewrite run_all_acquired. simpl. rewrite Hrun.
  eexists. split; [done|]. simpl.
  by rewrite (run_calls_app _ _ [CallRunFilmstripApp defaults]).
Qed.

(** ** The imported names *)

Lemma for_each_ext {A} (f f' : A -> @cell Label Dataset OutputData ExtError World unit)
    (xs : list A) :
  (forall x k, f x k = f' x k) ->
  forall k, for_each xs f k = for_each xs f' k.
Proof.
  intros Hext. induction xs as [|x xs IH]; intros k; [done|].
  simpl. unfold cell_bind. rewrite Hext.
  destruct (f' x k) as [[e|[]] k1]; [done|]. apply IH.
Qed.

Lemma export_body_in_bound imp (group : Label * Dataset) k :
  has_write_geotiff imp = true ->
  export_body_in write_geotiff imp group k = export_body write_geotiff group k.
Proof.
  intros Himp. unfold export_body_in, export_body, cell_bind, read_import.
  simpl. by rewrite Himp.
Qed.

Lemma export_body_in_unbound imp (group : Label * Dataset) k :
  has_write_geotiff imp = false ->
  export_body_in write_geotiff imp group k
  = (inl (NameError "write_geotiff"),
     Kernel (set_ds (snd group) (set_i (fst group) (globals k)))
       (stdout k ++ [progress_line group]) (world k) (calls k)).
Proof.
  intros Himp. unfold export_body_in, cell_bind, read_import. simpl.
  by rewrite Himp.
Qed.

Lemma export_cell_in_bound imp k :
  has_write_geotiff imp = true ->
  export_cell_in groupby write_geotiff imp k
  = export_cell groupby write_geotiff k.
Proof.
  intros Himp. unfold export_cell_in, export_cell, cell_bind.
  destruct (read_global _ _ k) as [[e|d] k1]; [done|].
  destruct (call_groupby _ _ _ k1) as [[e|groups] k2]; [done|].
  apply for_each_ext. intros group k3. by apply export_body_in_bound.
Qed.

Lemma acquisition_cell_in_bound imp k :
  has_run_filmstrip_app imp = true ->
  acquisition_cell_in run_filmstrip_app imp k
  = acquisition_cell run_filmstrip_app k.
Proof.
  intros Himp. unfold acquisition_cell_in, acquisition_cell.
  unfold cell_bind at 1. unfold read_import. by rewrite Himp.
Qed.

Lemma acquisition_cell_in_unbound imp k :
  has_run_filmstrip_app imp = false ->
  acquisition_cell_in run_filmstrip_app imp k
  = (inl (NameError "run_filmstrip_app"), k).
Proof.
  intros Himp. unfold acquisition_cell_in.
  unfold cell_bind at 1. unfold read_import. by rewrite Himp.
Qed.

Lemma run_all_in_bound imp k :
  has_run_filmstrip_app imp = true ->
  has_write_geotiff imp = true ->
  run_all_in run_filmstrip_app groupby write_geotiff datacube_version imp k
  = run_all run_filmstrip_app groupby write_geotiff datacube_version k.
Proof.
  intros Hrun Hwrite. unfold run_all_in, run_all, cell_bind.
  rewrite !parameter_cell_run, acquisition_cell_in_bound by done.
  destruct (acquisition_cell _ _) as [[e|[]] k2]; [done|].
  by rewrite export_cell_in_bound.
Qed.

Lemma export_cell_in_unbound_cases imp k x :
  fst (export_cell_in groupby write_geotiff imp k) = inl (NameError x) ->
  (x = "output_data"
   /\ g_output_data (globals k) = None
   /\ snd (export_cell_in groupby write_geotiff imp k) = k)
  \/ (x = "write_geotiff"
      /\ has_write_geotiff imp = false
      /\ writer_calls
           (run_calls k (snd (export_cell_in groupby write_geotiff imp k)))
         = [])
  \/ (x = "output_name"
      /\ g_output_name (globals k) = None
      /\ writer_calls
           (run_calls k (snd (export_cell_in groupby write_geotiff imp k)))
         = []).
Proof.
  destruct (has_write_geotiff imp) eqn:Himp.
  { rewrite export_cell_in_bound by done. intros Herr.
    destruct (export_name_errors k x Herr) as [Hdata|Hname]; [by left|].
    by right; right. }
  unfold export_cell_in, cell_bind, read_global, call_groupby.
  destruct (g_output_data (globals k)) as [d|] eqn:Hd; simpl.
  - destruct (groupby d "timestep") as [e|[|group rest]]; simpl; [done..|].
    unfold cell_bind. rewrite export_body_in_unbound by done. simpl.
    intros [= <-]. right; left. split; [done|]. split; [done|].
    by rewrite (run_calls_app _ _ [CallGroupby d "timestep"]).
  - intros [= <-]. by left.
Qed.

(** X1: the only names the export cell can find unbound are [output_data],
    in which case the kernel is left exactly as it was, the imported
    [write_geotiff], and [output_name]; in the last two cases the writer has
    not been called.  The loop targets [i] and [ds] are always bound when the
    body reads them. *)
Theorem export_in_name_errors imp k x :
  fst (export_cell_in groupby write_geotiff imp k) = inl (NameError x) ->
  (x = "output_data"
   /\ g_output_data (globals k) = None
   /\ snd (export_cell_in groupby write_geotiff imp k) = k)
  \/ (x = "write_geotiff"
      /\ has_write_geotiff imp = false
      /\ writer_calls
           (run_calls k (snd (export_cell_in groupby write_geotiff imp k)))
         = [])
  \/ (x = "output_name"
      /\ g_output_name (globals k) = None
      /\ writer_calls
           (run_calls k (snd (export_cell_in groupby write_geotiff imp k)))
         = []).
Proof. apply export_cell_in_unbound_cases. Qed.

(** X9: the acquisition cell calls the helper only when the imported
    [run_filmstrip_app] and all seven parameters are bound.  When a name is
    unbound it raises [NameError] for the first unbound one in the order it
    reads them, the function before its arguments, and leaves the kernel as
    it was, without calling the helper; otherwise it calls the helper exactly
    once. *)
Theorem acquisition_in_needs_all_names imp k :
  match head (unbound_names imp (globals k)) with
  | Some x =>
      acquisition_cell_in run_filmstrip_app imp k = (inl (NameError x), k)
  | None =>
      exists args,
        run_calls k (snd (acquisition_cell_in run_filmstrip_app imp k))
        = [CallRunFilmstripApp args]
  end.
Proof.
  unfold unbound_names. destruct (has_run_filmstrip_app imp) eqn:Himp.
  - rewrite acquisition_cell_in_bound by done. simpl.
    apply acquisition_needs_all_parameters.
  - simpl. by apply acquisition_cell_in_unbound.
Qed.

(** X12: run in order from any kernel, the cells raise [NameError] only for
    a name the import cell has not bound: with [run_filmstrip_app] unbound
    the run always ends at the acquisition cell with [NameError] for it, the
    only other candidate is [write_geotiff], and with both bound no name is
    found unbound, so the run completes or ends with an error raised by the
    helper, by the grouping or by the writer. *)
Theorem run_all_in_name_errors imp k :
  (forall x,
      fst (run_all_in run_filmstrip_app groupby write_geotiff
             datacube_version imp k) = inl (NameError x) ->
      (x = "run_filmstrip_app" /\ has_run_filmstrip_app imp = false)
      \/ (x = "write_geotiff" /\ has_write_geotiff imp = false))
  /\ (has_run_filmstrip_app imp = false ->
      fst (run_all_in run_filmstrip_app groupby write_geotiff
             datacube_version imp k) = inl (NameError "run_filmstrip_app"))
  /\ (has_run_filmstrip_app imp = true ->
      has_write_geotiff imp = true ->
      forall x,
        fst (run_all_in run_filmstrip_app groupby write_geotiff
               datacube_version imp k) <> inl (NameError x)).
Proof.
  assert (Hstart :
    run_all_in run_filmstrip_app groupby write_geotiff datacube_version imp k
    = match acquisition_cell_in run_filmstrip_app imp
              (snd (parameter_cell (ExtError := ExtError) k)) with
      | (inr _, k2) =>
          match export_cell_in groupby write_geotiff imp k2 with
          | (inr _, k3) => version_cell datacube_version k3
          | (inl e, k3) => (inl e, k3)
          end
      | (inl e, k2) => (inl e, k2)
      end).
  { unfold run_all_in, cell_bind. by rewrite parameter_cell_run. }
  split; [|split].
  - intros x. destruct (has_run_filmstrip_app imp) eqn:Hrun.
    + destruct (has_write_geotiff imp) eqn:Hwrite.
      { rewrite run_all_in_bound by done. intros Herr.
        by destruct (run_all_no_name_error k x). }
      rewrite Hstart, acquisition_cell_in_bound by done.
      rewrite (acquisition_cell_run run_filmstrip_app _ "example"
                 ("1988-01-01", "2017-12-31") {[ "years" := 5%Z ]}
                 (float_0_0, float_1_0) ((-30)%Z, 30%Z) 50%Z false)
        by (by rewrite parameter_cell_run).
      destruct (run_filmstrip_app _ _) as [[e|d] w]; [done|].
      match goal with
      | |- context [export_cell_in groupby write_geotiff imp ?k2] =>
          pose proof (export_cell_in_unbound_cases imp k2 x) as Hcases;
          destruct (export_cell_in groupby write_geotiff imp k2)
            as [[e|[]] k3]; [|done]
      end.
      simpl. intros [= ->].
      destruct (Hcases eq_refl) as [Hcase|[Hcase|Hcase]].
      * by destruct Hcase as (_ & Hdata & _).
      * right. by destruct Hcase as (-> & _).
      * by destruct Hcase as (_ & Hname & _).
    + rewrite Hstart, acquisition_cell_in_unbound by done. simpl.
      intros [= <-]. by left.
  - intros Hrun. by rewrite Hstart, acquisition_cell_in_unbound.
  - intros Hrun Hwrite x. rewrite run_all_in_bound by done.
    apply run_all_no_name_error.
Qed.

End NotebookRuns.

(** ** The further properties on the concrete session *)

Lemma export_without_output_name_witness :
  exists k',
    export_cell Scenario.groupby Scenario.write_geotiff Scenario.unnamed
    = (inl (NameError "output_name"), k')
    /\ stdout k' = stdout Scenario.unnamed ++ ["Exporting " +:+ py_format 1988%Z +:+ " data"]
    /\ g_i (globals k') = Some 1988%Z
    /\ g_ds (globals k') = Some "1988 to 1992"
    /\ writer_calls (run_calls Scenario.unnamed k') = []
    /\ world k' = world Scenario.unnamed.
Proof.
  apply (export_without_output_name Scenario.groupby Scenario.write_geotiff
           Scenario.unnamed Scenario.composites 1988%Z "1988 to 1992"
           (tail Scenario.composites)); reflexivity.
Defined.

Lemma export_groupby_error_witness :
  exists k',
    export_cell Scenario.groupby_missing Scenario.write_geotiff Scenario.loaded
    = (inl (Raised (Scenario.KeyError "timestep")), k')
    /\ run_calls Scenario.loaded k' = [CallGroupby Scenario.composites "timestep"]
    /\ stdout k' = stdout Scenario.loaded
    /\ world k' = world Scenario.loaded
    /\ globals k' = globals Scenario.loaded.
Proof.
  apply (export_groupby_error Scenario.groupby_missing Scenario.write_geotiff
           Scenario.loaded Scenario.composites (Scenario.KeyError "timestep"));
    reflexivity.
Defined.

Lemma export_progress_lines_witness :
  let k' :=
    snd (export_cell Scenario.groupby
           (Scenario.write_geotiff_locked "geotiff_example_1998.tif")
           Scenario.loaded) in
  exists n,
    n <= length Scenario.composites
    /\ stdout k'
       = stdout Scenario.loaded
         ++ map (fun group : Z * Scenario.raster =>
                   "Exporting " +:+ py_format (fst group) +:+ " data")
              (take n Scenario.composites)
    /\ map fst (writer_calls (run_calls Scenario.loaded k'))
       = map snd (take n Scenario.composites).
Proof.
  apply (export_progress_lines Scenario.groupby
           (Scenario.write_geotiff_locked "geotiff_example_1998.tif")
           Scenario.loaded "example" Scenario.composites Scenario.composites).
  - vm_compute. reflexivity.
  - vm_compute. reflexivity.
  - vm_compute. reflexivity.
Defined.

Lemma export_completion_witness :
  let requests :=
    map (fun group : Z * Scenario.raster =>
           (snd group,
            "geotiff_" +:+ "example" +:+ "_" +:+ py_format (fst group) +:+ ".tif"))
      Scenario.composites in
  let run :=
    export_cell Scenario.groupby
      (Scenario.write_geotiff_locked "geotiff_example_1998.tif")
      Scenario.loaded in
  (fst run = inr tt
   <-> fst (writer_run
              (Scenario.write_geotiff_locked "geotiff_example_1998.tif")
              requests (world Scenario.loaded)) = inr tt)
  /\ (fst run = inr tt ->
      writer_calls (run_calls Scenario.loaded (snd run)) = requests)
  /\ world (snd run)
     = snd (writer_run
              (Scenario.write_geotiff_locked "geotiff_example_1998.tif")
              requests (world Scenario.loaded)).
Proof.
  apply (export_completion Scenario.groupby
           (Scenario.write_geotiff_locked "geotiff_example_1998.tif")
           Scenario.loaded "example" Scenario.composites Scenario.composites).
  - vm_compute. reflexivity.
  - vm_compute. reflexivity.
  - vm_compute. reflexivity.
Defined.

Lemma export_targets_follow_last_call_witness :
  let k' :=
    snd (export_cell Scenario.groupby
           (Scenario.write_geotiff_locked "geotiff_example_1998.tif")
           Scenario.loaded) in
  exists i,
    g_i (globals k') = Some i
    /\ g_ds (globals k') = Some "1998 to 2002"
    /\ "geotiff_example_1998.tif"
       = "geotiff_" +:+ "example" +:+ "_" +:+ py_format i +:+ ".tif".
Proof.
  apply (export_targets_follow_last_call Scenario.groupby
           (Scenario.write_geotiff_locked "geotiff_example_1998.tif")
           Scenario.loaded "example" Scenario.composites Scenario.composites
           [ ("1988 to 1992", "geotiff_example_1988.tif");
             ("1993 to 1997", "geotiff_example_1993.tif") ]
           "1998 to 2002" "geotiff_example_1998.tif").
  - vm_compute. reflexivity.
  - vm_compute. reflexivity.
  - vm_compute. reflexivity.
  - vm_compute. reflexivity.
Defined.

Lemma export_depends_on_name_and_data_witness :
  let k2 : @kernel Z Scenario.raster Scenario.collection Scenario.directory :=
    Kernel (set_max_cloud 10%Z (set_i 7%Z (globals Scenario.loaded)))
      [ "earlier output" ] (world Scenario.loaded) [] in
  let run1 :=
    export_cell Scenario.groupby Scenario.write_geotiff Scenario.loaded in
  let run2 := export_cell Scenario.groupby Scenario.write_geotiff k2 in
  fst run1 = fst run2
  /\ run_calls Scenario.loaded (snd run1) = run_calls k2 (snd run2)
  /\ world (snd run1) = world (snd run2).
Proof.
  intros k2.
  apply (export_depends_on_name_and_data Scenario.groupby
           Scenario.write_geotiff Scenario.loaded k2 "example"
           Scenario.composites Scenario.composites).
  - vm_compute. reflexivity.
  - vm_compute. reflexivity.
  - vm_compute. reflexivity.
  - vm_compute. reflexivity.
  - vm_compute. reflexivity.
  - vm_compute. reflexivity.
Defined.

Lemma acquisition_failure_keeps_globals_witness :
  exists k',
    acquisition_cell Scenario.run_filmstrip_app_failing Scenario.earlier
    = (inl (Raised (Scenario.KeyError "product")), k')
    /\ globals k' = globals Scenario.earlier
    /\ stdout k' = stdout Scenario.earlier
    /\ world k' = world Scenario.earlier.
Proof.
  apply (acquisition_failure_keeps_globals Scenario.run_filmstrip_app_failing
           Scenario.earlier "earlier" ("1988-01-01", "2017-12-31")
           {[ "years" := 5%Z ]} (float_0_0, float_1_0) ((-30)%Z, 30%Z) 10%Z
           false (Scenario.KeyError "product") (world Scenario.earlier));
    reflexivity.
Defined.

Lemma run_all_end_to_end_witness :
  exists k',
    run_all Scenario.run_filmstrip_app Scenario.groupby Scenario.write_geotiff
      "1.8.0" Scenario.earlier
    = (inr tt, k')
    /\ run_calls Scenario.earlier k'
       = CallRunFilmstripApp
           (FilmstripArgs "example" ("1988-01-01", "2017-12-31")
              {[ "years" := 5%Z ]} (float_0_0, float_1_0) ((-30)%Z, 30%Z)
              50%Z false)
           :: CallGroupby Scenario.composites "timestep"
           :: map (fun group : Z * Scenario.raster =>
                     CallWriteGeotiff (snd group)
                       ("geotiff_example_" +:+ py_format (fst group) +:+ ".tif"))
                Scenario.composites
    /\ stdout k'
       = stdout Scenario.earlier
         ++ map (fun group : Z * Scenario.raster =>
                   "Exporting " +:+ py_format (fst group) +:+ " data")
              Scenario.composites
         ++ ["1.8.0"]
    /\ world k'
       = snd (writer_run Scenario.write_geotiff
                (map (fun group : Z * Scenario.raster =>
                        (snd group,
                         "geotiff_" +:+ "example" +:+ "_"
                           +:+ py_format (fst group) +:+ ".tif"))
                   Scenario.composites)
                (world Scenario.earlier))
    /\ g_output_data (globals k') = Some Scenario.composites.
Proof.
  apply (run_all_end_to_end Scenario.run_filmstrip_app Scenario.groupby
           Scenario.write_geotiff "1.8.0" Scenario.earlier Scenario.composites
           Scenario.composites (world Scenario.earlier)).
  - reflexivity.
  - reflexivity.
  - vm_compute. reflexivity.
Defined.

Lemma run_all_helper_failure_witness :
  exists k',
    run_all Scenario.run_filmstrip_app_failing Scenario.groupby
      Scenario.write_geotiff "1.8.0" Scenario.earlier
    = (inl (Raised (Scenario.KeyError "product")), k')
    /\ run_calls Scenario.earlier k'
       = [CallRunFilmstripApp
            (FilmstripArgs "example" ("1988-01-01", "2017-12-31")
               {[ "years" := 5%Z ]} (float_0_0, float_1_0) ((-30)%Z, 30%Z)
               50%Z false)]
    /\ stdout k' = stdout Scenario.earlier
    /\ world k' = world Scenario.earlier
    /\ g_output_data (globals k') = g_output_data (globals Scenario.earlier).
Proof.
  apply (run_all_helper_failure Scenario.run_filmstrip_app_failing
           Scenario.groupby Scenario.write_geotiff "1.8.0" Scenario.earlier
           (Scenario.KeyError "product") (world Scenario.earlier)).
  reflexivity.
Defined.

Lemma export_in_name_errors_witness :
  let run :=
    export_cell_in Scenario.groupby Scenario.write_geotiff
      (Imports false true) Scenario.loaded in
  ("write_geotiff" = "output_data"
   /\ g_output_data (globals Scenario.loaded) = None
   /\ snd run = Scenario.loaded)
  \/ ("write_geotiff" = "write_geotiff"
      /\ has_write_geotiff (Imports false true) = false
      /\ writer_calls (run_calls Scenario.loaded (snd run)) = [])
  \/ ("write_geotiff" = "output_name"
      /\ g_output_name (globals Scenario.loaded) = None
      /\ writer_calls (run_calls Scenario.loaded (snd run)) = []).
Proof.
  apply (export_in_name_errors Scenario.groupby Scenario.write_geotiff
           (Imports false true) Scenario.loaded "write_geotiff").
  reflexivity.
Defined.

Lemma run_all_in_name_errors_witness :
  fst (run_all_in Scenario.run_filmstrip_app Scenario.groupby
         Scenario.write_geotiff "1.8.0" (Imports false false) Scenario.fresh)
  = inl (NameError "run_filmstrip_app").
Proof.
  apply (proj1 (proj2 (run_all_in_name_errors Scenario.run_filmstrip_app
                         Scenario.groupby Scenario.write_geotiff "1.8.0"
                         (Imports false false) Scenario.fresh))).
  reflexivity.
Defined.
